(** * iagos_envri: the ENVRI-ID token acquisition and the flight download

    A shallow embedding of [src/iagos_envri/iagos_introspection.py].

    The functions of the module talk to the outside (console, two HTTP
    servers, the clock, the file system) and [getHeaderOAuth] polls in a
    [while True] loop, so each function is an interaction tree: the calls to
    the outside are events, the loop is [ITree.iter], and an exception is
    the [Throw] event of the library.  A run of a tree against a
    deterministic environment is computed by [exec], which keeps a log of
    every call made and the content of the files written. *)

From Stdlib Require Import ZArith String Ascii List Lia Floats DecimalString.
From stdpp Require Import gmap strings.
From ITree Require Import ITree Eq.Shallow Events.Exception.
Import ListNotations.

Set Warnings "-register-all".
Local Open Scope Z_scope.
Local Open Scope string_scope.
Local Open Scope list_scope.

Declare Scope py_scope.
Delimit Scope py_scope with py.
Notation "x <- t ;; k" := (ITree.bind t (fun x => k))
  (at level 100, t at level 99, right associativity, only parsing) : py_scope.
Notation "t ;; k" := (ITree.bind t (fun _ => k))
  (at level 100, right associativity, only parsing) : py_scope.
Local Open Scope py_scope.

(** ** Python values

    What [response.json()] can return.  A [str] is the string of its UTF-8
    bytes, an [int] is unbounded, a [float] is a binary64, a [dict] is the
    list of its items in insertion order (its keys are distinct; a lookup
    takes the first item with the key). *)

Inductive pyval : Type :=
| PNone
| PBool (b : bool)
| PInt (z : Z)
| PFloat (f : float)
| PStr (s : string)
| PList (l : list pyval)
| PDict (d : list (string * pyval)).

Abbreviation bytes := (list Byte.byte) (only parsing).

(** The exceptions the module can raise: [Exception(msg)] by its own
    [raise] statements, the next four by the evaluation of its expressions,
    the last three by [time.sleep] and [open] ([OSError] stands for its
    subclasses too). *)
Variant exn : Type :=
| Exception (msg : string)
| KeyError (key : string)
| TypeError
| AttributeError
| JSONDecodeError
| ValueError
| OverflowError
| OSError.

Fixpoint dict_lookup (key : string) (d : list (string * pyval)) : option pyval :=
  match d with
  | [] => None
  | (k, v) :: d' => if String.eqb k key then Some v else dict_lookup key d'
  end.

(** [v[key]] for a [str] key. *)
Definition py_getitem (v : pyval) (key : string) : exn + pyval :=
  match v with
  | PDict d =>
      match dict_lookup key d with
      | Some x => inr x
      | None => inl (KeyError key)
      end
  | _ => inl TypeError
  end.

(** [v.get(key)]: only a [dict] has the method. *)
Definition py_get (v : pyval) (key : string) : exn + pyval :=
  match v with
  | PDict d =>
      match dict_lookup key d with
      | Some x => inr x
      | None => inr PNone
      end
  | _ => inl AttributeError
  end.

(** [v == s] for a [str] literal [s]. *)
Definition py_eq_str (v : pyval) (s : string) : bool :=
  match v with
  | PStr s' => String.eqb s' s
  | _ => false
  end.

(** [v += 5]: defined on numbers ([bool] is a subclass of [int]). *)
Definition py_iadd_5 (v : pyval) : exn + pyval :=
  match v with
  | PInt z => inr (PInt (z + 5))
  | PBool b => inr (PInt (Z.b2z b + 5))
  | PFloat f => inr (PFloat (f + 5)%float)
  | _ => inl TypeError
  end.

(** [s + v] for a [str] literal [s]. *)
Definition py_str_add (s : string) (v : pyval) : exn + string :=
  match v with
  | PStr t => inr (s +:+ t)
  | _ => inl TypeError
  end.

(** [str(z)] for an [int]. *)
Definition str_of_int (z : Z) : string := NilZero.string_of_int (Z.to_int z).

(** [if chunk:] for a [bytes] object. *)
Definition bytes_truth (chunk : bytes) : bool :=
  match chunk with
  | [] => false
  | _ :: _ => true
  end.

Definition nl : string := String (ascii_of_nat 10) EmptyString.

(** ** The outside: HTTP, console, clock, files *)

(** A [requests.Response] as far as the module reads it.  [json] is what
    [.json()] returns, [None] when the body is not JSON and the call raises;
    [iter_content] is the list of chunks that
    [.iter_content(chunk_size=8192)] yields, whose concatenation is the
    body. *)
Record response : Type := Response {
  status_code : Z;
  text : string;
  json : option pyval;
  iter_content : list bytes
}.

Definition response_json (r : response) : exn + pyval :=
  match json r with
  | Some v => inr v
  | None => inl JSONDecodeError
  end.

Definition body (r : response) : bytes := concat (iter_content r).

Definition header := list (string * string).

(** A file object opened by [open(path, "wb")] is known by its path. *)
Abbreviation file := string (only parsing).

(** The calls the module makes to the outside, one event each, named after
    the call.  A failure of the network, of the console or of a write is not
    part of the model, and the time a sleep takes is not either: a sleep is
    the call with its argument.  An argument that [time.sleep] refuses and a
    path that [open] refuses are the matter of [exec_os] below. *)
Variant ioE : Type -> Type :=
| Print (s : string) : ioE unit
| Input (prompt : string) : ioE string
| RequestsPost (url : string) (data : list (string * pyval)) : ioE response
| RequestsGet (url : string) (headers : header) (stream : bool) : ioE response
| TimeSleep (secs : pyval) : ioE unit
| OpenWb (path : string) : ioE file
| FileWrite (f : file) (chunk : bytes) : ioE unit
| FileClose (f : file) : ioE unit.

Definition pyE : Type -> Type := exceptE exn +' ioE.

(** A Python computation with a result of type [A]. *)
Definition py (A : Type) : Type := itree pyE A.

Definition raise {A : Type} (e : exn) : py A :=
  Vis (inl1 (Throw e)) (fun v : void => match v with end).

Definition try_ {A : Type} (x : exn + A) : py A :=
  match x with
  | inl e => raise e
  | inr a => Ret a
  end.

Definition call {A : Type} (e : ioE A) : py A := ITree.trigger (inr1 e).

(** ** Runs

    Every call to the outside is logged; the log is what an observer of the
    process sees. *)
Variant action : Type :=
| APrint (s : string)
| AInput (prompt answer : string)
| APost (url : string) (data : list (string * pyval))
| AGet (url : string) (headers : header) (stream : bool)
| ASleep (secs : pyval)
| AOpen (path : string)
| AWrite (path : string) (chunk : bytes)
| AClose (path : string).

(** The operator and the servers: deterministic, free to answer by what has
    happened so far. *)
Record env : Type := Env {
  operator : list action -> string -> string;
  post_server : list action -> string -> list (string * pyval) -> response;
  get_server : list action -> string -> header -> response
}.

(** [files] holds the content of what was written, by the path string it
    was opened with: two spellings of the path of one file are two
    entries. *)
Record world : Type := World {
  log : list action;
  files : gmap string bytes
}.

Definition logged (a : action) (w : world) : world :=
  World (log w ++ [a]) (files w).

(** What a call that the outside accepts answers and leaves behind.  Whether
    a sleep or an open is accepted is decided by [refusal] below, in
    [exec_os]. *)
Definition handle (ev : env) {A : Type} (e : ioE A) (w : world) : A * world :=
  match e in ioE T return T * world with
  | Print s => (tt, logged (APrint s) w)
  | Input prompt =>
      let answer := operator ev (log w) prompt in
      (answer, logged (AInput prompt answer) w)
  | RequestsPost url data =>
      (post_server ev (log w) url data, logged (APost url data) w)
  | RequestsGet url headers stream =>
      (get_server ev (log w) url headers, logged (AGet url headers stream) w)
  | TimeSleep secs => (tt, logged (ASleep secs) w)
  | OpenWb path =>
      (path, World (log w ++ [AOpen path]) (<[path := []]> (files w)))
  | FileWrite f chunk =>
      (tt, World (log w ++ [AWrite f chunk])
                 (<[f := default [] (files w !! f) ++ chunk]> (files w)))
  | FileClose f => (tt, logged (AClose f) w)
  end.

Variant outcome (R : Type) : Type :=
| Returned (r : R)
| Raised (e : exn)
| Running.
Arguments Returned {R} r.
Arguments Raised {R} e.
Arguments Running {R}.

(** [exec ev fuel t w]: the run of [t] from [w] in which every call is
    accepted, cut after [fuel] steps (a step is a call to the outside or a
    turn of a loop).  [Running] is the outcome of a run that was cut. *)
Fixpoint exec (ev : env) (fuel : nat) {R : Type} (t : py R) (w : world)
  : outcome R * world :=
  match observe t with
  | RetF r => (Returned r, w)
  | TauF t' =>
      match fuel with
      | O => (Running, w)
      | S fuel' => exec ev fuel' t' w
      end
  | VisF e k =>
      match e with
      | inl1 (Throw x) => (Raised x, w)
      | inr1 io =>
          match fuel with
          | O => (Running, w)
          | S fuel' => let (a, w') := handle ev io w in exec ev fuel' (k a) w'
          end
      end
  end.

(** ** The module *)

Definition SERVICE_URL : string :=
  "https://api.sedoo.fr/iagos-backend-test/v2.0/downloads".
Definition AUTH_BASE_URL : string :=
  "https://login.staging.envri.eu/auth/realms/envri/protocol/openid-connect".

Definition print (s : string) : py unit := call (Print s).
Definition input (prompt : string) : py string := call (Input prompt).
Definition requests_post (url : string) (data : list (string * pyval))
  : py response := call (RequestsPost url data).
Definition requests_get (url : string) (headers : header) (stream : bool)
  : py response := call (RequestsGet url headers stream).
Definition time_sleep (secs : pyval) : py unit := call (TimeSleep secs).

Definition getHeader : py header :=
  token <- input "Please fill your ENVRI-ID token :" ;;
  Ret [("Authorization", "Bearer " +:+ token);
       ("Accept", "application/octet-stream")].

(** The body of [for chunk in response.iter_content(chunk_size=8192)]. *)
Fixpoint write_chunks (f : file) (chunks : list bytes) : py unit :=
  match chunks with
  | [] => Ret tt
  | chunk :: rest =>
      (if bytes_truth chunk then call (FileWrite f chunk) else Ret tt) ;;
      write_chunks f rest
  end.

Section Introspection.

(** [repr] of the interpreter for a float, a list or a dict; [str] and an
    f-string field fall back to it on these. *)
Variable py_repr : pyval -> string.

(** [str(v)], which is also what [f"{v}"] gives. *)
Definition py_str (v : pyval) : string :=
  match v with
  | PStr s => s
  | PInt z => str_of_int z
  | PBool true => "True"
  | PBool false => "False"
  | PNone => "None"
  | _ => py_repr v
  end.

(** The [data] of a token request. *)
Definition token_data_of (device_code : pyval) : list (string * pyval) :=
  [("grant_type", PStr "urn:ietf:params:oauth:grant-type:device_code");
   ("device_code", device_code);
   ("client_id", PStr "envri-token-cli")].

(** One turn of the [while True] loop of [getHeaderOAuth]: [inl interval]
    is [continue] with the interval as it is then, [inr h] is [return h]. *)
Definition poll (device_code interval : pyval) : py (pyval + header) :=
  token_response <-
    requests_post (AUTH_BASE_URL +:+ "/token") (token_data_of device_code) ;;
  if (status_code token_response =? 200)%Z then
    token_data <- try_ (response_json token_response) ;;
    access_token <- try_ (py_getitem token_data "access_token") ;;
    print "✓ Authentication successful!" ;;
    authorization <- try_ (py_str_add "Bearer " access_token) ;;
    Ret (inr [("Authorization", authorization);
              ("Accept", "application/octet-stream")])
  else if (status_code token_response =? 400)%Z then
    error_data <- try_ (response_json token_response) ;;
    error_type <- try_ (py_get error_data "error") ;;
    if py_eq_str error_type "authorization_pending" then
      print "⏳ Still waiting for authorization..." ;;
      time_sleep interval ;;
      Ret (inl interval)
    else if py_eq_str error_type "slow_down" then
      interval <- try_ (py_iadd_5 interval) ;;
      print ("⏳ Slowing down polling to " +:+ py_str interval
             +:+ "s intervals...") ;;
      time_sleep interval ;;
      Ret (inl interval)
    else if py_eq_str error_type "expired_token" then
      raise (Exception
        "Device code expired. Please restart the authentication process.")
    else if py_eq_str error_type "access_denied" then
      raise (Exception "Access denied by user.")
    else
      raise (Exception ("Authentication error: " +:+ py_str error_data))
  else
    raise (Exception ("Token request failed: "
                      +:+ str_of_int (status_code token_response)
                      +:+ " - " +:+ text token_response)).

(** The [while True] loop, entered with the interval of the device
    response. *)
Definition polling (device_code interval : pyval) : py header :=
  ITree.iter (poll device_code) interval.

Definition getHeaderOAuth : py header :=
  print "Initiating OAuth2 device flow..." ;;
  device_response <-
    requests_post (AUTH_BASE_URL +:+ "/auth/device")
      [("client_id", PStr "envri-token-cli");
       ("scope", PStr "openid profile email entitlements")] ;;
  if negb (status_code device_response =? 200)%Z then
    raise (Exception ("Device authorization request failed: "
                      +:+ text device_response))
  else
    device_data <- try_ (response_json device_response) ;;
    print (nl +:+ "Please open this URL in your browser:") ;;
    uri <- try_ (py_getitem device_data "verification_uri_complete") ;;
    print (py_str uri) ;;
    expires_in <- try_ (py_getitem device_data "expires_in") ;;
    print (nl +:+ "Waiting for authentication... (expires in "
           +:+ py_str expires_in +:+ " seconds)") ;;
    device_code <- try_ (py_getitem device_data "device_code") ;;
    interval <- try_ (py_getitem device_data "interval") ;;
    polling device_code interval.

Definition downloadOneFlight (flight output_dir : string) (use_oauth : bool)
  : py unit :=
  headers <- (if use_oauth then getHeaderOAuth else getHeader) ;;
  response <-
    requests_get
      (SERVICE_URL +:+ "/" +:+ flight
       +:+ "?level=2&format=netcdf&type=timeseries") headers true ;;
  let output_file := output_dir +:+ "/" +:+ flight +:+ ".nc" in
  if (status_code response =? 200)%Z then
    f <- call (OpenWb output_file) ;;
    write_chunks f (iter_content response) ;;
    call (FileClose f) ;;
    print ("File downloaded : " +:+ output_file)
  else
    print ("Error " +:+ str_of_int (status_code response) +:+ ": "
           +:+ text response).

Definition main : py unit :=
  print "=== OAuth2 Device Flow Demo ===" ;;
  print "This demonstrates ENVRI-ID token acquisition and introspection by AERIS SSO" ;;
  response <- downloadOneFlight "2023050203041714" "/tmp/" true ;;
  Ret response.

End Introspection.

(** ** Vocabulary of the statements *)

Definition token_url : string := AUTH_BASE_URL +:+ "/token".
Definition device_url : string := AUTH_BASE_URL +:+ "/auth/device".

Definition device_form : list (string * pyval) :=
  [("client_id", PStr "envri-token-cli");
   ("scope", PStr "openid profile email entitlements")].

Definition flight_url (flight : string) : string :=
  SERVICE_URL +:+ "/" +:+ flight +:+ "?level=2&format=netcdf&type=timeseries".

(** The path [downloadOneFlight] writes to. *)
Definition output_path (output_dir flight : string) : string :=
  output_dir +:+ "/" +:+ flight +:+ ".nc".

(** What the resource server answers to the download request made in world
    [w] with the header [h]. *)
Definition resource_answer (ev : env) (w : world) (flight : string)
    (h : header) : response :=
  get_server ev (log w) (flight_url flight) h.

(** The chunks of a response that the download loop writes. *)
Definition written_chunks (r : response) : list bytes :=
  List.filter bytes_truth (iter_content r).

(** The form of a token request for the device code [device_code], spelled
    out: the grant type of the device flow, the device code, the client. *)
Definition token_form (device_code : pyval) : list (string * pyval) :=
  [("grant_type", PStr "urn:ietf:params:oauth:grant-type:device_code");
   ("device_code", device_code);
   ("client_id", PStr "envri-token-cli")].

(** The token request of a poll, as it is logged. *)
Definition token_request (device_code : pyval) : action :=
  APost token_url (token_form device_code).

(** What the token endpoint answers to a poll made in world [w]. *)
Definition token_answer (ev : env) (w : world) (device_code : pyval)
  : response :=
  post_server ev (log w) token_url (token_form device_code).

(** What the device-authorization endpoint answers when [getHeaderOAuth]
    is called in world [w] (the first print is logged by then). *)
Definition device_answer (ev : env) (w : world) : response :=
  post_server ev (log w ++ [APrint "Initiating OAuth2 device flow..."])
    device_url device_form.

(** A response with status 400 whose JSON body is an object with the
    string [s] in its field [error]. *)
Definition error_is (r : response) (s : string) : bool :=
  (status_code r =? 400)%Z &&
  match json r with
  | Some (PDict d) =>
      match dict_lookup "error" d with
      | Some (PStr s') => String.eqb s' s
      | _ => false
      end
  | _ => false
  end.

(** The four values of [error] that the loop names. *)
Definition recognised (e : pyval) : bool :=
  py_eq_str e "authorization_pending" || py_eq_str e "slow_down"
  || py_eq_str e "expired_token" || py_eq_str e "access_denied".

(** The log of one turn that ends in [continue]. *)
Definition pending_turn (device_code interval : pyval) : list action :=
  [token_request device_code;
   APrint "⏳ Still waiting for authorization...";
   ASleep interval].

Definition slow_down_turn (device_code : pyval) (interval : Z) : list action :=
  [token_request device_code;
   APrint ("⏳ Slowing down polling to " +:+ str_of_int (interval + 5)
           +:+ "s intervals...");
   ASleep (PInt (interval + 5))].

Fixpoint slow_down_turns (device_code : pyval) (interval : Z) (n : nat)
  : list action :=
  match n with
  | O => []
  | S n' =>
      slow_down_turn device_code interval
      ++ slow_down_turns device_code (interval + 5) n'
  end.

Fixpoint pending_turns (device_code interval : pyval) (n : nat)
  : list action :=
  match n with
  | O => []
  | S n' =>
      pending_turn device_code interval
      ++ pending_turns device_code interval n'
  end.

(** [word] occurs in [msg]. *)
Fixpoint mentions (word msg : string) : bool :=
  match msg with
  | EmptyString => String.prefix word msg
  | String _ rest => String.prefix word msg || mentions word rest
  end.

Definition is_file_event {A : Type} (e : ioE A) : bool :=
  match e with
  | OpenWb _ | FileWrite _ _ | FileClose _ => true
  | _ => false
  end.

(** [t] makes no call on a file within its first [n] steps. *)
Fixpoint file_free (n : nat) {R : Type} (t : py R) : Prop :=
  match observe t with
  | RetF _ => True
  | TauF t' =>
      match n with
      | O => True
      | S n' => file_free n' t'
      end
  | VisF e k =>
      match e with
      | inl1 _ => True
      | inr1 io =>
          is_file_event io = false /\
          match n with
          | O => True
          | S n' => forall a, file_free n' (k a)
          end
      end
  end.

(** *** Environments of the examples *)

Fixpoint count_token_requests (h : list action) : nat :=
  match h with
  | [] => O
  | APost url _ :: h' =>
      if String.eqb url token_url then S (count_token_requests h')
      else count_token_requests h'
  | _ :: h' => count_token_requests h'
  end.

(** The operator types [typed]; the device endpoint answers [device]; the
    token endpoint answers [tokens k] to the poll that follows [k] earlier
    ones; the resource server answers [resource]. *)
Definition scripted (typed : string) (device : response)
    (tokens : nat -> response) (resource : response) : env :=
  Env (fun _ _ => typed)
      (fun h url _ =>
         if String.eqb url token_url then tokens (count_token_requests h)
         else device)
      (fun _ _ _ => resource).

Definition json_response (status : Z) (v : pyval) : response :=
  Response status "" (Some v) [].

Definition text_response (status : Z) (t : string) : response :=
  Response status t None [list_byte_of_string t].

Definition device_ok : response :=
  json_response 200
    (PDict [("device_code", PStr "abc"); ("interval", PInt 5);
            ("expires_in", PInt 600);
            ("verification_uri_complete", PStr "https://x")]).

Definition token_error (s : string) : response :=
  json_response 400 (PDict [("error", PStr s)]).

Definition token_ok (t : string) : response :=
  json_response 200 (PDict [("access_token", PStr t)]).

Definition fresh : world := World [] ∅.

(** The operator types a token, the device endpoint accepts, the token
    endpoint gives the same answer [token] to every poll and the resource
    server answers [resource]. *)
Definition answering (token resource : response) : env :=
  scripted "manual-token" device_ok (fun _ => token) resource.

(** The scenario of the device flow: one pending answer, then the token. *)
Definition pending_then_token : env :=
  scripted "manual-token" device_ok
    (fun k => match k with
              | O => token_error "authorization_pending"
              | S _ => token_ok "tok123"
              end)
    (text_response 200 "NCDATA").

(** Stands for the interpreter's [repr] in the examples: exact where no
    float occurs and no string needs an escape. *)
Fixpoint repr_plain (v : pyval) : string :=
  match v with
  | PNone => "None"
  | PBool true => "True"
  | PBool false => "False"
  | PInt z => str_of_int z
  | PFloat _ => "nan"
  | PStr s => "'" +:+ s +:+ "'"
  | PList l => "[" +:+ String.concat ", " (map repr_plain l) +:+ "]"
  | PDict d =>
      "{" +:+ String.concat ", "
                (map (fun kv => "'" +:+ fst kv +:+ "': " +:+ repr_plain (snd kv)) d)
      +:+ "}"
  end.

(** ** Vocabulary of the safety statements *)

(** The action that the call [e], answered by [a], leaves in the log. *)
Definition action_of {A : Type} (e : ioE A) : A -> action :=
  match e in ioE T return T -> action with
  | Print s => fun _ => APrint s
  | Input prompt => fun answer => AInput prompt answer
  | RequestsPost url data => fun _ => APost url data
  | RequestsGet url headers stream => fun _ => AGet url headers stream
  | TimeSleep secs => fun _ => ASleep secs
  | OpenWb path => fun _ => AOpen path
  | FileWrite f chunk => fun _ => AWrite f chunk
  | FileClose f => fun _ => AClose f
  end.

(** The action changes the content of the file at [p]. *)
Definition writes_to (p : string) (a : action) : bool :=
  match a with
  | AOpen q | AWrite q _ => String.eqb q p
  | _ => false
  end.

(** ** Runs in which the operating system can refuse a call

    [exec] lets every call return.  Two calls of the module are refused by
    the interpreter or the operating system on some arguments, and the
    module goes on past both when they are accepted:
    - [time.sleep(secs)] raises TypeError when [secs] is not a number,
      ValueError when it is negative or a NaN, and an error of the platform
      when it is longer than the platform can wait;
    - [open(path, "wb")] raises ValueError when [path] holds a NUL byte and
      an error of the file system at hand when it does not let the path be
      opened (a missing directory, a directory, a permission).
    What the platform and the file system decide is an [os]; [exec_os] is
    [exec] with the refusals: a refused call raises and leaves the world as
    it was. *)
Record os : Type := Os {
  too_long : pyval -> option exn;
  cannot_open : string -> option exn
}.

Definition sleep_check (v : pyval) : option exn :=
  match v with
  | PInt z => if (z <? 0)%Z then Some ValueError else None
  | PBool _ => None
  | PFloat f =>
      if (PrimFloat.is_nan f || PrimFloat.ltb f 0)%bool then Some ValueError
      else None
  | _ => Some TypeError
  end.

Definition sleep_refusal (o : os) (v : pyval) : option exn :=
  match sleep_check v with
  | Some x => Some x
  | None => too_long o v
  end.

Fixpoint has_nul (s : string) : bool :=
  match s with
  | EmptyString => false
  | String c s' => Ascii.eqb c "000"%char || has_nul s'
  end.

Definition open_refusal (o : os) (path : string) : option exn :=
  if has_nul path then Some ValueError else cannot_open o path.

Definition refusal (o : os) (a : action) : option exn :=
  match a with
  | ASleep secs => sleep_refusal o secs
  | AOpen path => open_refusal o path
  | _ => None
  end.

Fixpoint exec_os (ev : env) (o : os) (fuel : nat) {R : Type} (t : py R)
    (w : world) : outcome R * world :=
  match observe t with
  | RetF r => (Returned r, w)
  | TauF t' =>
      match fuel with
      | O => (Running, w)
      | S fuel' => exec_os ev o fuel' t' w
      end
  | VisF e k =>
      match e with
      | inl1 (Throw x) => (Raised x, w)
      | inr1 io =>
          match fuel with
          | O => (Running, w)
          | S fuel' =>
              let (a, w') := handle ev io w in
              match refusal o (action_of io a) with
              | Some x => (Raised x, w)
              | None => exec_os ev o fuel' (k a) w'
              end
          end
      end
  end.

(** An operating system of the examples: it can wait up to [longest]
    seconds and opens the paths under [/tmp/] only. *)
Definition tmp_only (longest : Z) : os :=
  Os (fun v => match v with
               | PInt z => if (longest <? z)%Z then Some OverflowError else None
               | _ => None
               end)
     (fun path => if String.prefix "/tmp/" path then None else Some OSError).

(** What the outside can answer to a call, whatever the environment:
    anything, but for [open], which gives the file of the path. *)
Definition may_answer {A : Type} (e : ioE A) : A -> Prop :=
  match e in ioE T return T -> Prop with
  | OpenWb path => fun f => f = path
  | _ => fun _ => True
  end.

(** Within its first [n] steps, whatever the outside answers, [t] makes only
    calls whose action is in [Q], and a result it returns is in [post]. *)
Fixpoint keeps_to (Q : action -> Prop) (n : nat) {R : Type}
    (post : R -> Prop) (t : py R) : Prop :=
  match observe t with
  | RetF r => post r
  | TauF t' =>
      match n with
      | O => True
      | S n' => keeps_to Q n' post t'
      end
  | VisF e k =>
      match e with
      | inl1 _ => True
      | inr1 io =>
          forall a,
            may_answer io a ->
            Q (action_of io a) /\
            match n with
            | O => True
            | S n' => keeps_to Q n' post (k a)
            end
      end
  end.

(** The same with a monitor: [step s a] is the state after the action [a]
    in state [s], [None] when the monitor refuses [a] there.  Within its
    first [n] steps [t], started in state [s], makes only calls the monitor
    accepts, and a result it returns is in [post] with the state reached. *)
Fixpoint conforms {St : Type} (step : St -> action -> option St) (n : nat)
    {R : Type} (post : St -> R -> Prop) (s : St) (t : py R) : Prop :=
  match observe t with
  | RetF r => post s r
  | TauF t' =>
      match n with
      | O => True
      | S n' => conforms step n' post s t'
      end
  | VisF e k =>
      match e with
      | inl1 _ => True
      | inr1 io =>
          forall a,
            may_answer io a ->
            exists s',
              step s (action_of io a) = Some s' /\
              match n with
              | O => True
              | S n' => conforms step n' post s' (k a)
              end
      end
  end.

(** The state a monitor reaches on a list of actions. *)
Fixpoint monitor {St : Type} (step : St -> action -> option St) (s : St)
    (l : list action) : option St :=
  match l with
  | [] => Some s
  | a :: l' =>
      match step s a with
      | Some s' => monitor step s' l'
      | None => None
      end
  end.

(** The order of a turn of the loop: a request, then a print, then a sleep;
    a request is accepted at the start and after a sleep only. *)
Variant pace : Type := Ready | Asked | Told.

Definition pace_step (s : pace) (a : action) : option pace :=
  match s, a with
  | Ready, APost _ _ => Some Asked
  | Asked, APrint _ => Some Told
  | Told, ASleep _ => Some Ready
  | _, _ => None
  end.

(** At most one GET: the state tells whether one was sent. *)
Definition one_get (sent : bool) (a : action) : option bool :=
  match a with
  | AGet _ _ _ => if sent then None else Some true
  | _ => Some sent
  end.

Fixpoint count_gets (l : list action) : nat :=
  match l with
  | [] => O
  | AGet _ _ _ :: l' => S (count_gets l')
  | _ :: l' => count_gets l'
  end.

(** What the loop of [getHeaderOAuth] may do with the device code [d]. *)
Definition polling_action (d : pyval) (a : action) : Prop :=
  match a with
  | APost url data =>
      url = token_url
      /\ data = [("grant_type",
                  PStr "urn:ietf:params:oauth:grant-type:device_code");
                 ("device_code", d);
                 ("client_id", PStr "envri-token-cli")]
  | APrint _ | ASleep _ => True
  | _ => False
  end.

(** A sleep is of the integer interval [i] plus a multiple of 5. *)
Definition paced_action (i : Z) (a : action) : Prop :=
  match a with
  | ASleep v => exists n : nat, v = PInt (i + 5 * Z.of_nat n)
  | _ => True
  end.

(** What [getHeaderOAuth] may do: print, sleep, and post to its two
    endpoints. *)
Definition oauth_action (a : action) : Prop :=
  match a with
  | APost url _ => url = device_url \/ url = token_url
  | APrint _ | ASleep _ => True
  | _ => False
  end.

(** No contact with the identity provider, and no sleep. *)
Definition offline_action (a : action) : Prop :=
  match a with
  | APost _ _ | ASleep _ => False
  | _ => True
  end.

(** No prompt, and no file but the one at [path]. *)
Definition unattended_action (path : string) (a : action) : Prop :=
  match a with
  | AInput _ _ => False
  | AOpen q | AWrite q _ | AClose q => q = path
  | _ => True
  end.

(** No file but the one at [path]; a request to the resource server is a
    streamed GET of the flight with the fixed query. *)
Definition download_action (flight path : string) (a : action) : Prop :=
  match a with
  | AOpen q | AWrite q _ | AClose q => q = path
  | AGet url _ stream => url = flight_url flight /\ stream = true
  | _ => True
  end.

(** A prompt of the operator. *)
Definition prompt_action (a : action) : Prop :=
  match a with
  | AInput _ _ => True
  | _ => False
  end.

(** What [downloadOneFlight] may do once it has the header: a streamed GET
    of the flight, calls on the file at [path], and prints. *)
Definition resource_action (flight path : string) (a : action) : Prop :=
  match a with
  | AGet url _ stream => url = flight_url flight /\ stream = true
  | AOpen q | AWrite q _ | AClose q => q = path
  | APrint _ => True
  | _ => False
  end.

(** What [downloadOneFlight] does, by the way it gets the header. *)
Definition whole_action (use_oauth : bool) (flight path : string)
    (a : action) : Prop :=
  (if use_oauth then oauth_action a else prompt_action a)
  \/ resource_action flight path a.

(** The mapping both ways of getting the header build. *)
Definition bearer_header (h : header) : Prop :=
  exists t : string,
    h = [("Authorization", "Bearer " +:+ t);
         ("Accept", "application/octet-stream")].

(** What [getHeaderOAuth] has logged when it enters its loop. *)
Definition instructions (py_repr : pyval -> string) (uri expires : pyval)
  : list action :=
  [APrint "Initiating OAuth2 device flow...";
   APost device_url device_form;
   APrint (nl +:+ "Please open this URL in your browser:");
   APrint (py_str py_repr uri);
   APrint (nl +:+ "Waiting for authentication... (expires in "
           +:+ py_str py_repr expires +:+ " seconds)")].

(** The two lines [main] prints first. *)
Definition banners : list action :=
  [APrint "=== OAuth2 Device Flow Demo ===";
   APrint "This demonstrates ENVRI-ID token acquisition and introspection by AERIS SSO"].

(** The first of the four fields of the device response, in the order
    [getHeaderOAuth] reads them, that [data] lacks. *)
Definition first_missing (data : list (string * pyval)) : option string :=
  match dict_lookup "verification_uri_complete" data with
  | None => Some "verification_uri_complete"
  | Some _ =>
      match dict_lookup "expires_in" data with
      | None => Some "expires_in"
      | Some _ =>
          match dict_lookup "device_code" data with
          | None => Some "device_code"
          | Some _ =>
              match dict_lookup "interval" data with
              | None => Some "interval"
              | Some _ => None
              end
          end
      end
  end.

(** [v += 5] is defined on [v]. *)
Definition is_number (v : pyval) : bool :=
  match v with
  | PInt _ | PBool _ | PFloat _ => true
  | _ => false
  end.

Definition is_str (v : pyval) : bool :=
  match v with
  | PStr _ => true
  | _ => false
  end.

Definition is_dict (v : pyval) : bool :=
  match v with
  | PDict _ => true
  | _ => false
  end.

(** ** Runs of composed computations *)

Section Exec.

Variable ev : env.

Lemma exec_observe (fuel : nat) {R : Type} (t t' : py R) (w : world) :
  observe t = observe t' -> exec ev fuel t w = exec ev fuel t' w.
Proof.
  intros H. destruct fuel; cbn; rewrite H; reflexivity.
Qed.

Lemma exec_bind_ret (fuel : nat) {A R : Type} (a : A) (k : A -> py R) w :
  exec ev fuel (ITree.bind (Ret a) k) w = exec ev fuel (k a) w.
Proof. apply exec_observe. reflexivity. Qed.

Lemma exec_bind_call (fuel : nat) {A R : Type} (e : ioE A) (k : A -> py R) w :
  exec ev (S fuel) (ITree.bind (call e) k) w
  = exec ev fuel (k (fst (handle ev e w))) (snd (handle ev e w)).
Proof.
  cbn. destruct (handle ev e w) as [a w']. cbn. apply exec_bind_ret.
Qed.

Lemma exec_call (fuel : nat) {A : Type} (e : ioE A) w :
  exec ev (S fuel) (call e) w
  = (Returned (fst (handle ev e w)), snd (handle ev e w)).
Proof.
  cbn. destruct (handle ev e w) as [a w']. cbn. destruct fuel; reflexivity.
Qed.

Lemma exec_bind_call_0 {A R : Type} (e : ioE A) (k : A -> py R) w :
  exec ev 0 (ITree.bind (call e) k) w = (Running, w).
Proof. reflexivity. Qed.

Lemma exec_bind_raise (fuel : nat) {A R : Type} (x : exn) (k : A -> py R) w :
  exec ev fuel (ITree.bind (raise x) k) w = (Raised x, w).
Proof. destruct fuel; reflexivity. Qed.

Lemma exec_raise (fuel : nat) {R : Type} (x : exn) w :
  exec ev fuel (raise x : py R) w = (Raised x, w).
Proof. destruct fuel; reflexivity. Qed.

Lemma exec_ret (fuel : nat) {R : Type} (r : R) w :
  exec ev fuel (Ret r : py R) w = (Returned r, w).
Proof. destruct fuel; reflexivity. Qed.

Lemma exec_tau (fuel : nat) {R : Type} (t : py R) w :
  exec ev (S fuel) (Tau t) w = exec ev fuel t w.
Proof. reflexivity. Qed.

(** A run that has ended is not changed by more fuel. *)
Lemma exec_mono (fuel : nat) {R : Type} (t : py R) w o w' :
  exec ev fuel t w = (o, w') -> o <> Running ->
  forall more, exec ev (fuel + more) t w = (o, w').
Proof.
  revert t w. induction fuel as [|fuel IH]; intros t w H Ho more.
  - cbn in H. destruct more as [|more]; [exact H|].
    cbn. destruct (observe t) as [r|t'|X e k]; [exact H| |].
    + inversion H; subst; contradiction.
    + destruct e as [ex|io]; [exact H|].
      inversion H; subst; contradiction.
  - cbn in H |- *. destruct (observe t) as [r|t'|X e k]; [exact H| |].
    + apply IH; assumption.
    + destruct e as [ex|io]; [exact H|].
      destruct (handle ev io w) as [a w1]. apply IH; assumption.
Qed.

(** One step of the run of [x <- t ;; k x], by the head of [t]. *)
Lemma exec_bind_head (fuel : nat) {A R : Type} (t : py A) (k : A -> py R) w :
  exec ev fuel (ITree.bind t k) w
  = match observe t with
    | RetF a => exec ev fuel (k a) w
    | TauF t' => exec ev fuel (Tau (ITree.bind t' k)) w
    | VisF e k' => exec ev fuel (Vis e (fun x => ITree.bind (k' x) k)) w
    end.
Proof.
  destruct (observe t) as [a|t'|X e k'] eqn:Ht;
    apply exec_observe; rewrite observe_bind, Ht; reflexivity.
Qed.

(** Sequencing: the run of [x <- t ;; k x] is the run of [t] followed, when
    [t] returns, by the run of [k] on its result. *)
Lemma exec_bind_returned (fuel : nat) {A R : Type} (t : py A) (k : A -> py R)
      w a w1 :
  exec ev fuel t w = (Returned a, w1) ->
  forall more o w2,
    exec ev more (k a) w1 = (o, w2) -> o <> Running ->
    exec ev (fuel + more) (ITree.bind t k) w = (o, w2).
Proof.
  revert t w. induction fuel as [|fuel IH]; intros t w H more o w2 Hk Ho;
    rewrite exec_bind_head; cbn in H;
    destruct (observe t) as [r|t'|X e k'].
  - inversion H; subst. exact Hk.
  - discriminate H.
  - destruct e as [ex|io]; [destruct ex|]; discriminate H.
  - inversion H; subst. rewrite Nat.add_comm. apply exec_mono; assumption.
  - cbn. eapply IH; eassumption.
  - destruct e as [ex|io]; [destruct ex; discriminate H|].
    cbn. destruct (handle ev io w) as [b w']. eapply IH; eassumption.
Qed.

Lemma exec_bind_raised (fuel : nat) {A R : Type} (t : py A) (k : A -> py R)
      w x w1 :
  exec ev fuel t w = (Raised x, w1) ->
  exec ev fuel (ITree.bind t k) w = (Raised x, w1).
Proof.
  revert t w. induction fuel as [|fuel IH]; intros t w H;
    rewrite exec_bind_head; cbn in H;
    destruct (observe t) as [r|t'|X e k'].
  - discriminate H.
  - discriminate H.
  - destruct e as [ex|io]; [|discriminate H].
    revert k'; destruct ex as [y]; intros k'. inversion H; subst. reflexivity.
  - discriminate H.
  - cbn. apply IH. exact H.
  - destruct e as [ex|io].
    { revert k'; destruct ex as [y]; intros k'. inversion H; subst.
      reflexivity. }
    cbn. destruct (handle ev io w) as [b w']. apply IH. exact H.
Qed.

Lemma exec_iter (fuel : nat) {I R : Type} (step : I -> py (I + R)) (i : I) w :
  exec ev fuel (ITree.iter step i) w
  = exec ev fuel
      (ITree.bind (step i)
         (fun lr => match lr with
                    | inl l => Tau (ITree.iter step l)
                    | inr r => Ret r
                    end)) w.
Proof. apply exec_observe. reflexivity. Qed.

Lemma exec_bind_bind (fuel : nat) {A B R : Type}
      (t : py A) (k : A -> py B) (h : B -> py R) w :
  exec ev fuel (ITree.bind (ITree.bind t k) h) w
  = exec ev fuel (ITree.bind t (fun x => ITree.bind (k x) h)) w.
Proof.
  revert t w. induction fuel as [|fuel IH]; intros t w;
    rewrite (exec_bind_head _ (ITree.bind t k)), (exec_bind_head _ t);
    rewrite observe_bind; destruct (observe t) as [a|t'|X e k']; cbn [observe _observe].
  - rewrite <- exec_bind_head. reflexivity.
  - reflexivity.
  - destruct e as [ex|io]; [destruct ex|]; reflexivity.
  - rewrite <- exec_bind_head. reflexivity.
  - cbn. apply IH.
  - destruct e as [ex|io]; [destruct ex; reflexivity|].
    cbn. destruct (handle ev io w) as [b w']. apply IH.
Qed.

End Exec.


(** ** The device flow *)

Ltac run_step :=
  first [ rewrite exec_bind_bind
        | rewrite exec_bind_ret
        | rewrite exec_bind_call; cbn [handle fst snd]
        | rewrite exec_bind_call_0
        | rewrite exec_call; cbn [handle fst snd]
        | rewrite exec_bind_raise
        | rewrite exec_tau
        | rewrite exec_ret
        | rewrite exec_raise ].

Ltac run := repeat run_step.

(** Enters the loop and makes the token request of the turn. *)
Ltac enter_turn :=
  unfold polling; rewrite exec_iter; unfold poll at 1;
  unfold requests_post, print, time_sleep; cbn [Nat.add]; run;
  repeat match goal with
         | |- context [token_data_of ?d] =>
             change (token_data_of d) with (token_form d)
         end.

Section DeviceFlow.

Variable py_repr : pyval -> string.
Variable ev : env.

Lemma error_is_true (r : response) (s : string) :
  error_is r s = true ->
  status_code r = 400 /\
  exists d, json r = Some (PDict d) /\ dict_lookup "error" d = Some (PStr s).
Proof.
  unfold error_is. intros H. apply andb_prop in H as [Hs H].
  split; [apply Z.eqb_eq, Hs|].
  destruct (json r) as [[| | | | |l|d]|]; try discriminate H.
  exists d. split; [reflexivity|].
  destruct (dict_lookup "error" d) as [[| | | |s'| |]|]; try discriminate H.
  apply String.eqb_eq in H. subst. reflexivity.
Qed.

Lemma world_eta (w : world) : World (log w) (files w) = w.
Proof. destruct w; reflexivity. Qed.

Lemma logged_app (l : list action) (a : action) (w : world) :
  logged a (World (log w ++ l) (files w))
  = World (log w ++ l ++ [a]) (files w).
Proof. unfold logged; cbn. rewrite <- app_assoc. reflexivity. Qed.

(** Without fuel nothing is done to the world. *)
Lemma exec_0_world {R : Type} (t : py R) (w : world) :
  snd (exec ev 0 t w) = w.
Proof.
  cbn. destruct (observe t) as [r|t'|X e k]; [reflexivity|reflexivity|].
  destruct e as [ex|io]; [destruct ex|]; reflexivity.
Qed.

(** Every turn of the loop starts with a token request that carries the
    device code the loop was entered with. *)
Lemma polling_requests (d i : pyval) (w : world) :
  snd (exec ev 1 (polling py_repr d i) w) = logged (token_request d) w.
Proof.
  enter_turn. apply exec_0_world.
Qed.

(** C1. When the token endpoint answers a poll with status 200 and a JSON
    object whose field access_token is the string t, the loop of
    getHeaderOAuth ends at that turn and the function returns the mapping
    with Authorization: "Bearer " + t and Accept: application/octet-stream;
    the turn made the one token request and printed the success line. *)
Theorem token_200_returns_bearer_header
    (d i : pyval) (w : world) (body : list (string * pyval)) (t : string)
    (fuel : nat) :
  status_code (token_answer ev w d) = 200 ->
  json (token_answer ev w d) = Some (PDict body) ->
  dict_lookup "access_token" body = Some (PStr t) ->
  exec ev (2 + fuel) (polling py_repr d i) w
  = (Returned [("Authorization", "Bearer " +:+ t);
               ("Accept", "application/octet-stream")],
     World (log w ++ [token_request d; APrint "✓ Authentication successful!"])
           (files w)).
Proof.
  intros Hs Hj Ht. unfold token_answer, token_url in Hs, Hj.
  enter_turn. rewrite Hs. cbn [Z.eqb Pos.eqb].
  unfold response_json. rewrite Hj. cbn [try_]. run.
  cbn [py_getitem]. rewrite Ht. cbn [try_]. run.
  cbn [py_str_add try_]. run.
  unfold logged; cbn [log files]. rewrite <- !app_assoc. reflexivity.
Qed.

(** A status 400 whose [error] is none of the four named values ends the
    loop with the payload in the exception. *)
Lemma polling_other_error (d i : pyval) (w : world)
    (body : list (string * pyval)) (e : pyval) (fuel : nat) :
  status_code (token_answer ev w d) = 400 ->
  json (token_answer ev w d) = Some (PDict body) ->
  py_get (PDict body) "error" = inr e ->
  recognised e = false ->
  exec ev (1 + fuel) (polling py_repr d i) w
  = (Raised (Exception ("Authentication error: "
                        +:+ py_str py_repr (PDict body))),
     logged (token_request d) w).
Proof.
  intros Hs Hj He Hr. unfold token_answer, token_url in Hs, Hj.
  unfold recognised in Hr.
  apply orb_false_elim in Hr as [Hr H4].
  apply orb_false_elim in Hr as [Hr H3].
  apply orb_false_elim in Hr as [H1 H2].
  enter_turn. rewrite Hs. cbn [Z.eqb Pos.eqb].
  unfold response_json. rewrite Hj. cbn [try_]. run.
  rewrite He. cbn [try_]. run.
  rewrite H1, H2, H3, H4. run. reflexivity.
Qed.

(** C5. When the token endpoint answers a poll with status 400 and error
    expired_token, and likewise with access_denied, the loop raises at once:
    the turn made its token request and nothing else, no sleep and no
    further request.  The two messages differ; the first mentions
    "expired", the second "denied". *)
Theorem expired_and_denied_raise_at_once
    (d i : pyval) (w : world) (fuel : nat) :
  (error_is (token_answer ev w d) "expired_token" = true ->
   exec ev (1 + fuel) (polling py_repr d i) w
   = (Raised (Exception
        "Device code expired. Please restart the authentication process."),
      World (log w ++ [token_request d]) (files w)))
  /\ (error_is (token_answer ev w d) "access_denied" = true ->
      exec ev (1 + fuel) (polling py_repr d i) w
      = (Raised (Exception "Access denied by user."),
         World (log w ++ [token_request d]) (files w)))
  /\ "Device code expired. Please restart the authentication process."
     <> "Access denied by user."
  /\ mentions "expired"
       "Device code expired. Please restart the authentication process."
     = true
  /\ mentions "denied" "Access denied by user." = true.
Proof.
  split; [|split; [|split; [|split]]].
  - intros H. apply error_is_true in H as (Hs & body & Hj & He).
    unfold token_answer, token_url in Hs, Hj.
    enter_turn. rewrite Hs. cbn [Z.eqb Pos.eqb].
    unfold response_json. rewrite Hj. cbn [try_]. run.
    cbn [py_get]. rewrite He. cbn [try_]. run.
    cbn [py_eq_str String.eqb Ascii.eqb Bool.eqb]. run. reflexivity.
  - intros H. apply error_is_true in H as (Hs & body & Hj & He).
    unfold token_answer, token_url in Hs, Hj.
    enter_turn. rewrite Hs. cbn [Z.eqb Pos.eqb].
    unfold response_json. rewrite Hj. cbn [try_]. run.
    cbn [py_get]. rewrite He. cbn [try_]. run.
    cbn [py_eq_str String.eqb Ascii.eqb Bool.eqb]. run. reflexivity.
  - discriminate.
  - reflexivity.
  - reflexivity.
Qed.

(** C10. When the token endpoint answers a poll with status 400 and a JSON
    object that has no field error, the lookup gives None, which is none of
    the four named values: the loop does not retry, it raises the exception
    of the last branch, whose message carries the payload; the turn made
    its token request and nothing else.  An object whose error is any other
    unrecognised value gets the same exception. *)
Theorem missing_error_field_raises
    (d i : pyval) (w : world) (body : list (string * pyval)) (fuel : nat) :
  status_code (token_answer ev w d) = 400 ->
  json (token_answer ev w d) = Some (PDict body) ->
  dict_lookup "error" body = None ->
  py_get (PDict body) "error" = inr PNone
  /\ recognised PNone = false
  /\ exec ev (1 + fuel) (polling py_repr d i) w
     = (Raised (Exception ("Authentication error: "
                           +:+ py_str py_repr (PDict body))),
        World (log w ++ [token_request d]) (files w))
  /\ (forall (w' : world) (body' : list (string * pyval)) (e : pyval),
        status_code (token_answer ev w' d) = 400 ->
        json (token_answer ev w' d) = Some (PDict body') ->
        dict_lookup "error" body' = Some e ->
        recognised e = false ->
        exec ev (1 + fuel) (polling py_repr d i) w'
        = (Raised (Exception ("Authentication error: "
                              +:+ py_str py_repr (PDict body'))),
           World (log w' ++ [token_request d]) (files w'))).
Proof.
  intros Hs Hj He.
  assert (Hget : py_get (PDict body) "error" = inr PNone).
  { cbn [py_get]. rewrite He. reflexivity. }
  split; [exact Hget|]. split; [reflexivity|]. split.
  - apply polling_other_error with (e := PNone);
      [exact Hs|exact Hj|exact Hget|reflexivity].
  - intros w' body' e Hs' Hj' He' Hr.
    apply polling_other_error with (e := e); try assumption.
    cbn [py_get]. rewrite He'. reflexivity.
Qed.

(** With a device response of status 200 that has the four fields read,
    [getHeaderOAuth] prints the instructions and enters the loop with the
    device code and the interval of the response. *)
Lemma getHeaderOAuth_enters_polling
    (w : world) (data : list (string * pyval)) (uri expires d i : pyval)
    (fuel : nat) :
  status_code (device_answer ev w) = 200 ->
  json (device_answer ev w) = Some (PDict data) ->
  dict_lookup "verification_uri_complete" data = Some uri ->
  dict_lookup "expires_in" data = Some expires ->
  dict_lookup "device_code" data = Some d ->
  dict_lookup "interval" data = Some i ->
  exec ev (5 + fuel) (getHeaderOAuth py_repr) w
  = exec ev fuel (polling py_repr d i)
      (World (log w ++
              [APrint "Initiating OAuth2 device flow...";
               APost device_url device_form;
               APrint (nl +:+ "Please open this URL in your browser:");
               APrint (py_str py_repr uri);
               APrint (nl +:+ "Waiting for authentication... (expires in "
                       +:+ py_str py_repr expires +:+ " seconds)")])
             (files w)).
Proof.
  intros Hs Hj Hu Hx Hd Hi.
  unfold device_answer, device_url, device_form in Hs, Hj.
  unfold getHeaderOAuth, requests_post, print. cbn [Nat.add]. run.
  change (log (logged (APrint "Initiating OAuth2 device flow...") w))
    with (log w ++ [APrint "Initiating OAuth2 device flow..."]).
  rewrite Hs. cbn [Z.eqb Pos.eqb negb].
  unfold response_json. rewrite Hj. cbn [try_]. run.
  cbn [py_getitem]. rewrite Hu. cbn [try_]. run.
  rewrite Hx. cbn [try_]. run.
  rewrite Hd. cbn [try_]. run.
  rewrite Hi. cbn [try_]. run.
  unfold logged; cbn [log files]. rewrite <- !app_assoc. reflexivity.
Qed.

Lemma count_token_requests_app (l l' : list action) :
  count_token_requests (l ++ l')
  = (count_token_requests l + count_token_requests l')%nat.
Proof.
  induction l as [|a l IH]; [reflexivity|].
  destruct a; cbn [app count_token_requests]; try exact IH.
  destruct (String.eqb url token_url); rewrite IH; reflexivity.
Qed.

(** C4. When the device-authorization endpoint answers with a status other
    than 200, getHeaderOAuth raises at once an exception whose message ends
    with the text of the response; by then it has printed its first line
    and made the device request.  At no point of the run has a token
    request been made. *)
Theorem device_non_200_raises_without_polling (w : world) :
  status_code (device_answer ev w) <> 200 ->
  (forall fuel,
     exec ev (2 + fuel) (getHeaderOAuth py_repr) w
     = (Raised (Exception ("Device authorization request failed: "
                           +:+ text (device_answer ev w))),
        World (log w ++ [APrint "Initiating OAuth2 device flow...";
                         APost device_url device_form]) (files w)))
  /\ (forall fuel,
        count_token_requests
          (log (snd (exec ev fuel (getHeaderOAuth py_repr) w)))
        = count_token_requests (log w)).
Proof.
  intros Hs. apply Z.eqb_neq in Hs.
  assert (Hrun : forall fuel,
    exec ev (2 + fuel) (getHeaderOAuth py_repr) w
    = (Raised (Exception ("Device authorization request failed: "
                          +:+ text (device_answer ev w))),
       World (log w ++ [APrint "Initiating OAuth2 device flow...";
                        APost device_url device_form]) (files w))).
  { intros fuel.
    unfold device_answer, device_url, device_form in Hs |- *.
    unfold getHeaderOAuth, requests_post, print. cbn [Nat.add]. run.
    change (log (logged (APrint "Initiating OAuth2 device flow...") w))
      with (log w ++ [APrint "Initiating OAuth2 device flow..."]).
    rewrite Hs. cbn [negb]. run.
    unfold logged; cbn [log files]. rewrite <- !app_assoc. reflexivity. }
  split; [exact Hrun|].
  intros [|[|fuel]].
  - rewrite exec_0_world. reflexivity.
  - unfold getHeaderOAuth, requests_post, print. run.
    cbn [snd logged log]. rewrite count_token_requests_app.
    cbn [count_token_requests]. lia.
  - change (S (S fuel)) with (2 + fuel)%nat. rewrite (Hrun fuel).
    cbn [snd log].
    rewrite count_token_requests_app.
    change (count_token_requests
              [APrint "Initiating OAuth2 device flow...";
               APost device_url device_form]) with O.
    lia.
Qed.

(** C9. Whatever string t the operator enters at the prompt, getHeader
    returns the mapping with Authorization: "Bearer " + t and Accept:
    application/octet-stream; it has no other outcome, and all it does is
    the one prompt. *)
Theorem getHeader_wraps_any_input (w : world) (t : string) (fuel : nat) :
  operator ev (log w) "Please fill your ENVRI-ID token :" = t ->
  exec ev (1 + fuel) getHeader w
  = (Returned [("Authorization", "Bearer " +:+ t);
               ("Accept", "application/octet-stream")],
     World (log w ++ [AInput "Please fill your ENVRI-ID token :" t])
           (files w)).
Proof.
  intros Ht. unfold getHeader, input. cbn [Nat.add]. run.
  rewrite Ht. reflexivity.
Qed.


End DeviceFlow.

(** ** Computations that leave the files alone *)

Section FileFree.

Variable ev : env.

Lemma file_free_eq (n : nat) {R : Type} (t : py R) :
  file_free n t
  = match observe t with
    | RetF _ => True
    | TauF t' =>
        match n with
        | O => True
        | S n' => file_free n' t'
        end
    | VisF e k =>
        match e with
        | inl1 _ => True
        | inr1 io =>
            is_file_event io = false /\
            match n with
            | O => True
            | S n' => forall a, file_free n' (k a)
            end
        end
    end.
Proof. destruct n; reflexivity. Qed.

Lemma file_free_mono (n : nat) :
  forall {R : Type} (t : py R), file_free (S n) t -> file_free n t.
Proof.
  induction n as [|n IH]; intros R t H; rewrite file_free_eq in H |- *;
    destruct (observe t) as [r|t'|X e k]; try exact I.
  - destruct e as [ex|io]; [exact I|]. split; [apply H|exact I].
  - apply IH. exact H.
  - destruct e as [ex|io]; [exact I|]. destruct H as [He Hk].
    split; [exact He|]. intros a. apply IH, Hk.
Qed.

Lemma file_free_bind (n : nat) :
  forall {A R : Type} (t : py A) (k : A -> py R),
    file_free n t -> (forall a, file_free n (k a)) ->
    file_free n (ITree.bind t k).
Proof.
  induction n as [|n IH]; intros A R t k Ht Hk;
    rewrite file_free_eq in Ht; rewrite file_free_eq, observe_bind;
    destruct (observe t) as [a|t'|X e k'].
  - change (file_free 0 (k a)). apply Hk.
  - exact I.
  - destruct e as [ex|io]; [exact I|]. split; [apply Ht|exact I].
  - change (file_free (S n) (k a)). apply Hk.
  - cbn. apply IH; [exact Ht|]. intros a. apply file_free_mono, Hk.
  - destruct e as [ex|io]; [exact I|]. destruct Ht as [He Hk'].
    split; [exact He|]. intros a. cbn.
    apply IH; [apply Hk'|]. intros b. apply file_free_mono, Hk.
Qed.

Lemma file_free_iter (n : nat) {S_ R : Type} (step : S_ -> py (S_ + R)) :
  (forall m i, file_free m (step i)) ->
  forall i, file_free n (ITree.iter step i).
Proof.
  intros Hstep. induction n as [|n IH]; intros i.
  - assert (H : file_free 0
                  (ITree.bind (step i)
                     (fun lr => match lr with
                                | inl l => Tau (ITree.iter step l)
                                | inr r => Ret r
                                end))).
    { apply file_free_bind; [apply Hstep|]. intros [l|r]; exact I. }
    exact H.
  - assert (H : file_free (S n)
                  (ITree.bind (step i)
                     (fun lr => match lr with
                                | inl l => Tau (ITree.iter step l)
                                | inr r => Ret r
                                end))).
    { apply file_free_bind; [apply Hstep|]. intros [l|r]; [|exact I].
      cbn. apply IH. }
    exact H.
Qed.

Lemma file_free_call (n : nat) {A : Type} (e : ioE A) :
  is_file_event e = false -> file_free n (call e).
Proof.
  intros H. destruct n; cbn; (split; [exact H|]); [exact I|].
  intros a. destruct n; exact I.
Qed.

Lemma file_free_raise (n : nat) {A : Type} (x : exn) :
  file_free n (raise x : py A).
Proof. destruct n; exact I. Qed.

Lemma file_free_ret (n : nat) {A : Type} (a : A) :
  file_free n (Ret a : py A).
Proof. destruct n; exact I. Qed.

Lemma file_free_try (n : nat) {A : Type} (x : exn + A) :
  file_free n (try_ x).
Proof. destruct x; [apply file_free_raise|apply file_free_ret]. Qed.

Lemma handle_files {A : Type} (e : ioE A) (w : world) :
  is_file_event e = false -> files (snd (handle ev e w)) = files w.
Proof. destruct e; intros H; try discriminate H; reflexivity. Qed.

(** A run of such a computation ends with the files it started with. *)
Lemma exec_file_free (fuel : nat) :
  forall {R : Type} (t : py R) (w : world),
    file_free fuel t -> files (snd (exec ev fuel t w)) = files w.
Proof.
  induction fuel as [|fuel IH]; intros R t w H;
    rewrite file_free_eq in H; cbn;
    destruct (observe t) as [r|t'|X e k]; try reflexivity.
  - destruct e as [ex|io]; [destruct ex|]; reflexivity.
  - apply IH, H.
  - destruct e as [ex|io]; [destruct ex; reflexivity|].
    destruct H as [He Hk].
    pose proof (handle_files io w He) as Hf.
    destruct (handle ev io w) as [a w']. cbn in Hf.
    rewrite IH by apply Hk. exact Hf.
Qed.

End FileFree.

Ltac file_free_step :=
  first [ apply file_free_bind; [|intros ?]
        | apply file_free_call; reflexivity
        | apply file_free_try
        | apply file_free_raise
        | apply file_free_ret
        | match goal with
          | |- file_free _ (if ?c then _ else _) => destruct c
          end ].

Section Download.

Variable py_repr : pyval -> string.
Variable ev : env.

Lemma getHeader_file_free (n : nat) : file_free n getHeader.
Proof. unfold getHeader, input. repeat file_free_step. Qed.

Lemma poll_file_free (n : nat) (d i : pyval) : file_free n (poll py_repr d i).
Proof.
  unfold poll, requests_post, print, time_sleep. repeat file_free_step.
Qed.

Lemma getHeaderOAuth_file_free (n : nat) :
  file_free n (getHeaderOAuth py_repr).
Proof.
  unfold getHeaderOAuth, requests_post, print. repeat file_free_step.
  unfold polling. apply file_free_iter. intros m j. apply poll_file_free.
Qed.

(** Getting the header, by either way, writes no file. *)
Lemma header_files (use_oauth : bool) (fuel : nat) (w : world) :
  files (snd (exec ev fuel
                (if use_oauth then getHeaderOAuth py_repr else getHeader) w))
  = files w.
Proof.
  apply exec_file_free.
  destruct use_oauth; [apply getHeaderOAuth_file_free|apply getHeader_file_free].
Qed.

Lemma concat_nonempty (chunks : list bytes) :
  concat (List.filter bytes_truth chunks) = concat chunks.
Proof.
  induction chunks as [|c rest IH]; [reflexivity|].
  destruct c as [|b c]; cbn [List.filter bytes_truth concat].
  - exact IH.
  - rewrite IH. reflexivity.
Qed.

(** The loop over the chunks appends the non-empty ones, in order, to the
    file opened. *)
Lemma exec_write_chunks (path : string) (chunks : list bytes) :
  forall {R : Type} (k : unit -> py R) (w : world) (c : bytes) (fuel : nat),
    files w !! path = Some c ->
    exec ev (length (List.filter bytes_truth chunks) + fuel)
      (ITree.bind (write_chunks path chunks) k) w
    = exec ev fuel (k tt)
        (World (log w ++ map (AWrite path) (List.filter bytes_truth chunks))
               (<[path := c ++ concat (List.filter bytes_truth chunks)]>
                  (files w))).
Proof.
  induction chunks as [|chunk rest IH]; intros R k w c fuel Hc.
  - cbn. run. rewrite !app_nil_r, (insert_id _ _ _ Hc), world_eta.
    reflexivity.
  - cbn [write_chunks]. destruct chunk as [|b chunk].
    + cbn [bytes_truth List.filter]. run. apply IH. exact Hc.
    + cbn [bytes_truth List.filter length Nat.add map concat]. run.
      rewrite Hc. cbn [default].
      rewrite (IH _ _ _ (c ++ b :: chunk)) by apply lookup_insert_eq.
      cbn [log files]. rewrite insert_insert_eq, <- !app_assoc.
      reflexivity.
Qed.

Lemma prefix_app (x b : string) : String.prefix x (x +:+ b) = true.
Proof.
  induction x as [|a x IH]; [destruct b; reflexivity|].
  change (String a x +:+ b) with (String a (x +:+ b)). cbn [String.prefix].
  destruct (ascii_dec a a) as [_|Hne]; [exact IH|contradiction].
Qed.

Lemma mentions_here (x m : string) :
  String.prefix x m = true -> mentions x m = true.
Proof.
  intros H. destruct m as [|a m]; cbn [mentions]; rewrite H; reflexivity.
Qed.

Lemma mentions_app_r (x a m : string) :
  mentions x m = true -> mentions x (a +:+ m) = true.
Proof.
  intros H. induction a as [|c a IH]; [exact H|].
  change (String c a +:+ m) with (String c (a +:+ m)). cbn [mentions].
  rewrite IH. apply orb_true_r.
Qed.

Lemma append_empty_r (s : string) : s +:+ "" = s.
Proof.
  induction s as [|a s IH]; [reflexivity|].
  change (String a s +:+ "") with (String a (s +:+ "")).
  rewrite IH. reflexivity.
Qed.

Lemma mentions_app (x a b : string) : mentions x (a +:+ x +:+ b) = true.
Proof. apply mentions_app_r, mentions_here, prefix_app. Qed.

(** C7. Once the header is obtained, a status other than 200 from the
    resource server makes downloadOneFlight print "Error ", the status
    code, ": " and the text of the response, and return normally: nothing
    is raised, the request is not repeated, and no file is opened or
    written. *)
Theorem download_non_200_reports
    (flight output_dir : string) (use_oauth : bool) (w : world)
    (fuel : nat) (h : header) (w1 : world) (more : nat) :
  exec ev fuel (if use_oauth then getHeaderOAuth py_repr else getHeader) w
  = (Returned h, w1) ->
  status_code (resource_answer ev w1 flight h) <> 200 ->
  exec ev (fuel + (2 + more))
    (downloadOneFlight py_repr flight output_dir use_oauth) w
  = (Returned tt,
     World (log w1
            ++ [AGet (flight_url flight) h true;
                APrint ("Error "
                        +:+ str_of_int
                              (status_code (resource_answer ev w1 flight h))
                        +:+ ": " +:+ text (resource_answer ev w1 flight h))])
           (files w))
  /\ mentions (str_of_int (status_code (resource_answer ev w1 flight h)))
       ("Error "
        +:+ str_of_int (status_code (resource_answer ev w1 flight h))
        +:+ ": " +:+ text (resource_answer ev w1 flight h)) = true
  /\ mentions (text (resource_answer ev w1 flight h))
       ("Error "
        +:+ str_of_int (status_code (resource_answer ev w1 flight h))
        +:+ ": " +:+ text (resource_answer ev w1 flight h)) = true.
Proof.
  intros Hh Hs. split; [|split].
  - pose proof (header_files use_oauth fuel w) as Hf. rewrite Hh in Hf.
    cbn [snd] in Hf. apply Z.eqb_neq in Hs.
    unfold downloadOneFlight.
    eapply exec_bind_returned; [exact Hh| |discriminate].
    unfold resource_answer, flight_url in Hs |- *.
    unfold requests_get, print. cbn [Nat.add]. run. rewrite Hs. run.
    unfold logged; cbn [log files]. rewrite Hf, <- !app_assoc. reflexivity.
  - apply mentions_app.
  - apply mentions_app_r, mentions_app_r, mentions_app_r, mentions_here.
    rewrite <- (prefix_app (text (resource_answer ev w1 flight h)) "").
    rewrite append_empty_r. reflexivity.
Qed.

End Download.

(** ** The scenarios, run *)

Example scenario_pending_then_token :
  exec pending_then_token 11 (getHeaderOAuth repr_plain) fresh
  = (Returned [("Authorization", "Bearer tok123");
               ("Accept", "application/octet-stream")],
     World [APrint "Initiating OAuth2 device flow...";
            APost device_url device_form;
            APrint (nl +:+ "Please open this URL in your browser:");
            APrint "https://x";
            APrint (nl +:+ "Waiting for authentication... (expires in 600 seconds)");
            token_request (PStr "abc");
            APrint "⏳ Still waiting for authorization...";
            ASleep (PInt 5);
            token_request (PStr "abc");
            APrint "✓ Authentication successful!"] ∅).
Proof. vm_compute. reflexivity. Qed.

Lemma token_200_witness :
  exec (answering (token_ok "tok123") (text_response 200 "NCDATA")) 2
    (polling repr_plain (PStr "abc") (PInt 5)) fresh
  = (Returned [("Authorization", "Bearer tok123");
               ("Accept", "application/octet-stream")],
     World [token_request (PStr "abc");
            APrint "✓ Authentication successful!"] ∅).
Proof.
  apply (token_200_returns_bearer_header repr_plain
           (answering (token_ok "tok123") (text_response 200 "NCDATA"))
           (PStr "abc") (PInt 5) fresh
           [("access_token", PStr "tok123")] "tok123" 0);
    reflexivity.
Defined.

Lemma device_non_200_witness :
  exec (scripted "" (text_response 503 "Service Unavailable")
          (fun _ => token_ok "tok123") (text_response 200 "NCDATA"))
    2 (getHeaderOAuth repr_plain) fresh
  = (Raised (Exception
       "Device authorization request failed: Service Unavailable"),
     World [APrint "Initiating OAuth2 device flow...";
            APost device_url device_form] ∅).
Proof.
  apply (proj1 (device_non_200_raises_without_polling repr_plain
                  (scripted "" (text_response 503 "Service Unavailable")
                     (fun _ => token_ok "tok123")
                     (text_response 200 "NCDATA"))
                  fresh ltac:(discriminate)) 0%nat).
Defined.

Lemma expired_and_denied_witness :
  exec (answering (token_error "expired_token") (text_response 200 "NCDATA"))
    1 (polling repr_plain (PStr "abc") (PInt 5)) fresh
  = (Raised (Exception
       "Device code expired. Please restart the authentication process."),
     World [token_request (PStr "abc")] ∅)
  /\ exec (answering (token_error "access_denied")
             (text_response 200 "NCDATA"))
       1 (polling repr_plain (PStr "abc") (PInt 5)) fresh
     = (Raised (Exception "Access denied by user."),
        World [token_request (PStr "abc")] ∅).
Proof.
  split.
  - apply (proj1 (expired_and_denied_raise_at_once repr_plain
                    (answering (token_error "expired_token")
                       (text_response 200 "NCDATA"))
                    (PStr "abc") (PInt 5) fresh 0)).
    reflexivity.
  - apply (proj1 (proj2 (expired_and_denied_raise_at_once repr_plain
                           (answering (token_error "access_denied")
                              (text_response 200 "NCDATA"))
                           (PStr "abc") (PInt 5) fresh 0))).
    reflexivity.
Defined.

Lemma download_404_witness :
  exec (answering (token_ok "tok123") (text_response 404 "not found")) 3
    (downloadOneFlight repr_plain "F1" "/tmp" false) fresh
  = (Returned tt,
     World [AInput "Please fill your ENVRI-ID token :" "manual-token";
            AGet (flight_url "F1")
              [("Authorization", "Bearer manual-token");
               ("Accept", "application/octet-stream")] true;
            APrint "Error 404: not found"] ∅).
Proof.
  apply (proj1 (download_non_200_reports repr_plain
                  (answering (token_ok "tok123") (text_response 404 "not found"))
                  "F1" "/tmp" false fresh 1
                  [("Authorization", "Bearer manual-token");
                   ("Accept", "application/octet-stream")]
                  (World [AInput "Please fill your ENVRI-ID token :"
                            "manual-token"] ∅)
                  0 eq_refl ltac:(discriminate))).
Defined.

Lemma getHeader_witness :
  exec (answering (token_ok "tok123") (text_response 200 "NCDATA")) 1
    getHeader fresh
  = (Returned [("Authorization", "Bearer manual-token");
               ("Accept", "application/octet-stream")],
     World [AInput "Please fill your ENVRI-ID token :" "manual-token"] ∅).
Proof.
  apply (getHeader_wraps_any_input
           (answering (token_ok "tok123") (text_response 200 "NCDATA"))
           fresh "manual-token" 0 eq_refl).
Defined.

Lemma missing_error_witness :
  exec (answering
          (json_response 400 (PDict [("message", PStr "bad request")]))
          (text_response 200 "NCDATA"))
    1 (polling repr_plain (PStr "abc") (PInt 5)) fresh
  = (Raised (Exception
       "Authentication error: {'message': 'bad request'}"),
     World [token_request (PStr "abc")] ∅).
Proof.
  apply (proj1 (proj2 (proj2
           (missing_error_field_raises repr_plain
              (answering
                 (json_response 400 (PDict [("message", PStr "bad request")]))
                 (text_response 200 "NCDATA"))
              (PStr "abc") (PInt 5) fresh
              [("message", PStr "bad request")] 0
              eq_refl eq_refl eq_refl)))).
Defined.

(** ** What a run can add to the log *)

Section KeepsTo.

Variable ev : env.
Variable Q : action -> Prop.

Lemma keeps_to_eq (n : nat) {R : Type} (post : R -> Prop) (t : py R) :
  keeps_to Q n post t
  = match observe t with
    | RetF r => post r
    | TauF t' =>
        match n with
        | O => True
        | S n' => keeps_to Q n' post t'
        end
    | VisF e k =>
        match e with
        | inl1 _ => True
        | inr1 io =>
            forall a,
              may_answer io a ->
              Q (action_of io a) /\
              match n with
              | O => True
              | S n' => keeps_to Q n' post (k a)
              end
        end
    end.
Proof. destruct n; reflexivity. Qed.

Lemma keeps_to_mono (n : nat) :
  forall {R : Type} (post : R -> Prop) (t : py R),
    keeps_to Q (S n) post t -> keeps_to Q n post t.
Proof.
  induction n as [|n IH]; intros R post t H; rewrite keeps_to_eq in H |- *;
    destruct (observe t) as [r|t'|X e k]; try exact H; try exact I.
  - destruct e as [ex|io]; [exact I|]. intros a Hm.
    split; [apply H, Hm|exact I].
  - apply IH. exact H.
  - destruct e as [ex|io]; [exact I|]. intros a Hm.
    destruct (H a Hm) as [Ha Hk].
    split; [exact Ha|]. apply IH, Hk.
Qed.

Lemma keeps_to_bind (n : nat) :
  forall {A R : Type} (mid : A -> Prop) (post : R -> Prop)
         (t : py A) (k : A -> py R),
    keeps_to Q n mid t ->
    (forall a, mid a -> keeps_to Q n post (k a)) ->
    keeps_to Q n post (ITree.bind t k).
Proof.
  induction n as [|n IH]; intros A R mid post t k Ht Hk;
    rewrite keeps_to_eq in Ht; rewrite keeps_to_eq, observe_bind;
    destruct (observe t) as [a|t'|X e k'].
  - change (keeps_to Q 0 post (k a)). apply Hk, Ht.
  - exact I.
  - destruct e as [ex|io]; [exact I|]. intros a Hm.
    split; [apply Ht, Hm|exact I].
  - change (keeps_to Q (S n) post (k a)). apply Hk, Ht.
  - cbn. apply (IH _ _ mid); [exact Ht|].
    intros a Ha. apply keeps_to_mono, Hk, Ha.
  - destruct e as [ex|io]; [exact I|]. intros a Hm.
    destruct (Ht a Hm) as [Ha Hk'].
    split; [exact Ha|]. cbn.
    apply (IH _ _ mid); [exact Hk'|].
    intros b Hb. apply keeps_to_mono, Hk, Hb.
Qed.

Lemma keeps_to_ret (n : nat) {R : Type} (post : R -> Prop) (r : R) :
  post r -> keeps_to Q n post (Ret r : py R).
Proof. intros H. destruct n; exact H. Qed.

Lemma keeps_to_raise (n : nat) {R : Type} (post : R -> Prop) (x : exn) :
  keeps_to Q n post (raise x : py R).
Proof. destruct n; exact I. Qed.

Lemma keeps_to_call (n : nat) {A : Type} (post : A -> Prop) (e : ioE A) :
  (forall a, may_answer e a -> Q (action_of e a) /\ post a) ->
  keeps_to Q n post (call e).
Proof.
  intros H. rewrite keeps_to_eq. cbn. intros a Hm. split; [apply H, Hm|].
  destruct n; [exact I|]. apply keeps_to_ret, H, Hm.
Qed.

Lemma keeps_to_weaken (n : nat) :
  forall {R : Type} (post post' : R -> Prop) (t : py R),
    (forall r, post r -> post' r) ->
    keeps_to Q n post t -> keeps_to Q n post' t.
Proof.
  induction n as [|n IH]; intros R post post' t Hp H;
    rewrite keeps_to_eq in H |- *;
    destruct (observe t) as [r|t'|X e k]; try exact I.
  - apply Hp, H.
  - destruct e as [ex|io]; [exact I|]. intros a Hm.
    split; [apply H, Hm|exact I].
  - apply Hp, H.
  - apply (IH _ post); assumption.
  - destruct e as [ex|io]; [exact I|]. intros a Hm.
    destruct (H a Hm) as [Ha Hk].
    split; [exact Ha|]. apply (IH _ post); assumption.
Qed.

(** A loop whose turns keep to [Q] and keep the invariant [inv] of the loop
    state keeps to [Q]. *)
Lemma keeps_to_iter {S_ R : Type} (inv : S_ -> Prop) (post : R -> Prop)
      (step : S_ -> py (S_ + R)) :
  (forall m s, inv s ->
     keeps_to Q m (fun lr => match lr with
                             | inl s' => inv s'
                             | inr r => post r
                             end) (step s)) ->
  forall n s, inv s -> keeps_to Q n post (ITree.iter step s).
Proof.
  intros Hstep. induction n as [|n IH]; intros s Hs.
  - assert (H : keeps_to Q 0 post
                  (ITree.bind (step s)
                     (fun lr => match lr with
                                | inl l => Tau (ITree.iter step l)
                                | inr r => Ret r
                                end))).
    { eapply keeps_to_bind; [apply Hstep, Hs|].
      intros [l|r] H; [exact I|exact H]. }
    exact H.
  - assert (H : keeps_to Q (S n) post
                  (ITree.bind (step s)
                     (fun lr => match lr with
                                | inl l => Tau (ITree.iter step l)
                                | inr r => Ret r
                                end))).
    { eapply keeps_to_bind; [apply Hstep, Hs|].
      intros [l|r] H; [|exact H]. cbn. apply IH, H. }
    exact H.
Qed.

Lemma handle_log {A : Type} (e : ioE A) (w : world) :
  log (snd (handle ev e w)) = log w ++ [action_of e (fst (handle ev e w))].
Proof. destruct e; reflexivity. Qed.

Lemma handle_may_answer {A : Type} (e : ioE A) (w : world) :
  may_answer e (fst (handle ev e w)).
Proof. destruct e; cbn; trivial. Qed.

Lemma handle_frame {A : Type} (e : ioE A) (w : world) (p : string) :
  writes_to p (action_of e (fst (handle ev e w))) = false ->
  files (snd (handle ev e w)) !! p = files w !! p.
Proof.
  destruct e; cbn; intros H; try reflexivity;
    apply String.eqb_neq in H; apply lookup_insert_ne; exact H.
Qed.

(** The log of a run is the log of the start followed by actions in [Q];
    a file none of them writes to is as it was; the result is in [post]. *)
Lemma exec_keeps_to (fuel : nat) :
  forall {R : Type} (post : R -> Prop) (t : py R) (w : world),
    keeps_to Q fuel post t ->
    exists l,
      log (snd (exec ev fuel t w)) = log w ++ l
      /\ Forall Q l
      /\ (forall p, Forall (fun a => writes_to p a = false) l ->
            files (snd (exec ev fuel t w)) !! p = files w !! p)
      /\ (forall r, fst (exec ev fuel t w) = Returned r -> post r).
Proof.
  assert (Hnil : forall (R : Type) (post : R -> Prop) (w : world),
    exists l : list action,
      log w = log w ++ l /\ Forall Q l
      /\ (forall p, Forall (fun a => writes_to p a = false) l ->
            files w !! p = files w !! p)
      /\ (forall r : R, @Running R = Returned r -> post r)).
  { intros R post w. exists []. rewrite app_nil_r.
    repeat split; [constructor|discriminate]. }
  induction fuel as [|fuel IH]; intros R post t w H;
    rewrite keeps_to_eq in H; cbn;
    destruct (observe t) as [r|t'|X e k].
  - exists []. rewrite app_nil_r. repeat split; [constructor|].
    intros r' Hr. inversion Hr; subst. exact H.
  - apply Hnil.
  - destruct e as [ex|io]; [destruct ex|apply Hnil].
    exists []. rewrite app_nil_r. repeat split; [constructor|discriminate].
  - exists []. rewrite app_nil_r. repeat split; [constructor|].
    intros r' Hr. inversion Hr; subst. exact H.
  - apply IH, H.
  - destruct e as [ex|io].
    { destruct ex. exists []. rewrite app_nil_r.
      repeat split; [constructor|discriminate]. }
    pose proof (handle_log io w) as Hlog.
    pose proof (handle_frame io w) as Hframe.
    pose proof (handle_may_answer io w) as Hm.
    destruct (handle ev io w) as [a w1]. cbn [fst snd] in Hlog, Hframe, Hm.
    destruct (H a Hm) as [Ha Hk].
    destruct (IH _ post (k a) w1 Hk) as (l & Hl & HQ & Hf & Hp).
    exists (action_of io a :: l). split; [|split; [|split]].
    + rewrite Hl, Hlog, <- app_assoc. reflexivity.
    + constructor; assumption.
    + intros p Hw. inversion Hw; subst.
      rewrite Hf by assumption. apply Hframe. assumption.
    + exact Hp.
Qed.

End KeepsTo.

Lemma keeps_to_implies (Q Q' : action -> Prop) (n : nat) :
  (forall a, Q a -> Q' a) ->
  forall {R : Type} (post : R -> Prop) (t : py R),
    keeps_to Q n post t -> keeps_to Q' n post t.
Proof.
  intros HQ. induction n as [|n IH]; intros R post t H;
    rewrite keeps_to_eq in H |- *;
    destruct (observe t) as [r|t'|X e k]; try exact H; try exact I.
  - destruct e as [ex|io]; [exact I|]. intros a Hm.
    split; [apply HQ, H, Hm|exact I].
  - apply IH, H.
  - destruct e as [ex|io]; [exact I|]. intros a Hm.
    destruct (H a Hm) as [Ha Hk].
    split; [apply HQ, Ha|apply IH, Hk].
Qed.

Lemma keeps_to_bind_ret (Q : action -> Prop) (n : nat) {A R : Type}
      (post : R -> Prop) (a : A) (k : A -> py R) :
  keeps_to Q n post (k a) -> keeps_to Q n post (ITree.bind (Ret a) k).
Proof.
  intros H. apply keeps_to_bind with (mid := fun x => x = a).
  - apply keeps_to_ret. reflexivity.
  - intros x ->. exact H.
Qed.

Lemma keeps_to_bind_raise (Q : action -> Prop) (n : nat) {A R : Type}
      (post : R -> Prop) (x : exn) (k : A -> py R) :
  keeps_to Q n post (ITree.bind (raise x) k).
Proof.
  apply keeps_to_bind with (mid := fun _ => False).
  - apply keeps_to_raise.
  - intros a [].
Qed.

Lemma keeps_to_bind_call (Q : action -> Prop) (n : nat) {A R : Type}
      (post : R -> Prop) (e : ioE A) (k : A -> py R) :
  (forall a, Q (action_of e a)) ->
  (forall a, may_answer e a -> keeps_to Q n post (k a)) ->
  keeps_to Q n post (ITree.bind (call e) k).
Proof.
  intros He Hk. apply keeps_to_bind with (mid := may_answer e).
  - apply keeps_to_call. intros a Hm. split; [apply He|exact Hm].
  - intros a Hm. apply Hk, Hm.
Qed.

Ltac keeps_step :=
  match goal with
  | |- keeps_to _ _ _ (ITree.bind (call _) _) =>
      apply keeps_to_bind_call; [intros ?|intros ? ?]
  | |- keeps_to _ _ _ (ITree.bind (try_ ?x) _) =>
      destruct x eqn:?; cbn [try_]
  | |- keeps_to _ _ _ (ITree.bind (Ret _) _) => apply keeps_to_bind_ret
  | |- keeps_to _ _ _ (ITree.bind (raise _) _) => apply keeps_to_bind_raise
  | |- keeps_to _ _ _ (raise _) => apply keeps_to_raise
  | |- keeps_to _ _ _ (Ret _) => apply keeps_to_ret
  | |- keeps_to _ _ _ (call _) => apply keeps_to_call; intros ? ?; split
  | |- keeps_to _ _ _ (if ?c then _ else _) => destruct c eqn:?
  end.

Section Safety.

Variable py_repr : pyval -> string.
Variable ev : env.

(** A turn of the loop posts to the token endpoint with the device code of
    the loop, prints and sleeps, and what it returns is a bearer header. *)
Lemma poll_keeps_to (m : nat) (d i : pyval) :
  keeps_to (polling_action d) m
    (fun lr : pyval + header =>
       match lr with
       | inl _ => True
       | inr h => bearer_header h
       end) (poll py_repr d i).
Proof.
  unfold poll, requests_post, print, time_sleep.
  repeat keeps_step; try exact I; try (split; reflexivity).
  match goal with
  | H : py_str_add _ ?v = inr _ |- _ =>
      destruct v; try discriminate H; cbn in H; inversion H; subst
  end.
  eexists. reflexivity.
Qed.

Lemma polling_keeps_to (n : nat) (d i : pyval) :
  keeps_to (polling_action d) n bearer_header (polling py_repr d i).
Proof.
  unfold polling.
  apply (keeps_to_iter (polling_action d) (fun _ => True)); [|exact I].
  intros m s _. apply poll_keeps_to.
Qed.

(** With an integer interval, a turn sleeps the interval or the interval
    plus 5, and continues with what it slept. *)
Lemma poll_keeps_pace (m : nat) (d : pyval) (i0 : Z) (n : nat) :
  keeps_to (paced_action i0) m
    (fun lr : pyval + header =>
       match lr with
       | inl s => exists n' : nat, s = PInt (i0 + 5 * Z.of_nat n')
       | inr _ => True
       end) (poll py_repr d (PInt (i0 + 5 * Z.of_nat n))).
Proof.
  unfold poll, requests_post, print, time_sleep.
  repeat keeps_step; try exact I;
    try match goal with
        | H : py_iadd_5 (PInt _) = inr _ |- _ =>
            cbn in H; inversion H; subst; clear H
        end;
    try (exists n; reflexivity);
    exists (S n); f_equal; lia.
Qed.

Lemma polling_keeps_pace (n : nat) (d : pyval) (i : Z) :
  keeps_to (paced_action i) n (fun _ : header => True)
    (polling py_repr d (PInt i)).
Proof.
  unfold polling.
  apply (keeps_to_iter (paced_action i)
           (fun s => exists n' : nat, s = PInt (i + 5 * Z.of_nat n'))).
  - intros m s [n' ->]. apply poll_keeps_pace.
  - exists O. f_equal. lia.
Qed.

Lemma polling_action_oauth (d : pyval) (a : action) :
  polling_action d a -> oauth_action a.
Proof. destruct a; cbn; intuition. Qed.

Lemma getHeaderOAuth_keeps_to (n : nat) :
  keeps_to oauth_action n bearer_header (getHeaderOAuth py_repr).
Proof.
  unfold getHeaderOAuth, requests_post, print.
  repeat keeps_step; try exact I; try (left; reflexivity).
  eapply keeps_to_implies; [apply polling_action_oauth|].
  apply polling_keeps_to.
Qed.

Lemma getHeader_keeps_to (n : nat) :
  keeps_to prompt_action n bearer_header getHeader.
Proof.
  unfold getHeader, input. repeat keeps_step; try exact I.
  eexists. reflexivity.
Qed.

Lemma write_chunks_keeps_to (n : nat) (flight path : string)
      (chunks : list (list Byte.byte)) :
  keeps_to (resource_action flight path) n (fun _ => True)
    (write_chunks path chunks).
Proof.
  induction chunks as [|chunk rest IH]; cbn [write_chunks].
  - apply keeps_to_ret. exact I.
  - destruct (bytes_truth chunk).
    + apply keeps_to_bind_call; [intros a; reflexivity|intros a _; exact IH].
    + apply keeps_to_bind_ret. exact IH.
Qed.

Lemma downloadOneFlight_keeps_to (n : nat) (flight output_dir : string)
      (use_oauth : bool) :
  keeps_to (whole_action use_oauth flight (output_path output_dir flight)) n
    (fun _ => True) (downloadOneFlight py_repr flight output_dir use_oauth).
Proof.
  unfold downloadOneFlight.
  apply keeps_to_bind with (mid := bearer_header).
  - destruct use_oauth.
    + eapply keeps_to_implies; [|apply getHeaderOAuth_keeps_to].
      intros a Ha. left. exact Ha.
    + eapply keeps_to_implies; [|apply getHeader_keeps_to].
      intros a Ha. left. exact Ha.
  - intros h _.
    eapply keeps_to_implies;
      [intros a Ha; right; exact Ha|].
    unfold requests_get, print.
    repeat keeps_step; try exact I; try reflexivity;
      try (split; reflexivity).
    match goal with H : may_answer (OpenWb _) _ |- _ => cbn in H; subst end.
    apply keeps_to_bind with (mid := fun _ => True);
      [apply write_chunks_keeps_to|intros _ _].
    repeat keeps_step; try exact I; reflexivity.
Qed.

Lemma main_keeps_to (n : nat) :
  keeps_to
    (whole_action true "2023050203041714"
       (output_path "/tmp/" "2023050203041714")) n
    (fun _ => True) (main py_repr).
Proof.
  unfold main, print.
  repeat keeps_step; try (right; exact I).
  apply keeps_to_bind with (mid := fun _ => True).
  - apply downloadOneFlight_keeps_to.
  - intros r _. apply keeps_to_ret. exact I.
Qed.

(** X1. Whatever the token endpoint answers and however long the loop of
    getHeaderOAuth runs, every request it makes is a POST to the token
    endpoint with the device code it was entered with; besides these it
    only prints and sleeps. *)
Theorem polling_only_polls_with_its_device_code
    (d i : pyval) (fuel : nat) (w : world) :
  exists l,
    log (snd (exec ev fuel (polling py_repr d i) w)) = log w ++ l
    /\ Forall (polling_action d) l.
Proof.
  destruct (exec_keeps_to ev (polling_action d) fuel bearer_header
              (polling py_repr d i) w (polling_keeps_to fuel d i))
    as (l & Hl & HQ & _).
  exists l. split; assumption.
Qed.

(** X2. With an integer interval i from the device response, every sleep of
    the loop is of i plus a multiple of 5, whatever the token endpoint
    answers: the interval is never shortened. *)
Theorem polling_never_shortens_the_interval
    (d : pyval) (i : Z) (fuel : nat) (w : world) :
  exists l,
    log (snd (exec ev fuel (polling py_repr d (PInt i)) w)) = log w ++ l
    /\ Forall (paced_action i) l.
Proof.
  destruct (exec_keeps_to ev (paced_action i) fuel (fun _ => True)
              (polling py_repr d (PInt i)) w (polling_keeps_pace fuel d i))
    as (l & Hl & HQ & _).
  exists l. split; assumption.
Qed.

(** X3. Whatever the servers answer, getHeaderOAuth only prints, sleeps and
    posts to its two endpoints: it never prompts the operator, never sends
    a GET and never opens or writes a file. *)
Theorem getHeaderOAuth_calls_only_its_endpoints (fuel : nat) (w : world) :
  exists l,
    log (snd (exec ev fuel (getHeaderOAuth py_repr) w)) = log w ++ l
    /\ Forall oauth_action l
    /\ files (snd (exec ev fuel (getHeaderOAuth py_repr) w)) = files w.
Proof.
  destruct (exec_keeps_to ev oauth_action fuel bearer_header
              (getHeaderOAuth py_repr) w (getHeaderOAuth_keeps_to fuel))
    as (l & Hl & HQ & _).
  exists l. split; [exact Hl|]. split; [exact HQ|].
  apply exec_file_free, getHeaderOAuth_file_free.
Qed.

(** X4. Whatever the servers answer, a value that getHeaderOAuth returns is
    a mapping of Authorization to "Bearer " followed by a string and of
    Accept to application/octet-stream. *)
Theorem getHeaderOAuth_returns_only_bearer_headers
    (fuel : nat) (w : world) (h : header) :
  fst (exec ev fuel (getHeaderOAuth py_repr) w) = Returned h ->
  bearer_header h.
Proof.
  destruct (exec_keeps_to ev oauth_action fuel bearer_header
              (getHeaderOAuth py_repr) w (getHeaderOAuth_keeps_to fuel))
    as (l & _ & _ & _ & Hp).
  apply Hp.
Qed.

Lemma whole_action_download (use_oauth : bool) (flight path : string) :
  forall a, whole_action use_oauth flight path a ->
            download_action flight path a.
Proof.
  intros a [H|H]; [destruct use_oauth|]; destruct a; cbn in *;
    try contradiction; try exact I; exact H.
Qed.

(** X6. With use_oauth false, downloadOneFlight makes no request to the
    identity provider and never sleeps, whatever the resource server
    answers. *)
Theorem manual_download_stays_off_the_identity_provider
    (flight output_dir : string) (fuel : nat) (w : world) :
  exists l,
    log (snd (exec ev fuel
                (downloadOneFlight py_repr flight output_dir false) w))
    = log w ++ l
    /\ Forall offline_action l.
Proof.
  destruct (exec_keeps_to ev _ fuel _ _ w
              (downloadOneFlight_keeps_to fuel flight output_dir false))
    as (l & Hl & HQ & _).
  exists l. split; [exact Hl|].
  eapply Forall_impl; [exact HQ|].
  intros a [H|H]; destruct a; cbn in *; try contradiction; exact I.
Qed.

(** X7. main never prompts the operator: it always takes the device flow,
    and the only file it can open, write or close is
    /tmp//2023050203041714.nc (the directory it passes ends with a slash and
    downloadOneFlight adds one). *)
Theorem main_is_unattended (fuel : nat) (w : world) :
  exists l,
    log (snd (exec ev fuel (main py_repr) w)) = log w ++ l
    /\ Forall (unattended_action "/tmp//2023050203041714.nc") l.
Proof.
  destruct (exec_keeps_to ev _ fuel _ _ w (main_keeps_to fuel))
    as (l & Hl & HQ & _).
  exists l. split; [exact Hl|].
  eapply Forall_impl; [exact HQ|].
  intros a [H|H]; destruct a; cbn in *; try contradiction; try exact I;
    subst; reflexivity.
Qed.

End Safety.

(** ** Answers the device flow does not expect *)

Section Edges.

Variable py_repr : pyval -> string.
Variable ev : env.

(** X8. When the token endpoint answers a poll with a status that is
    neither 200 nor 400, the loop raises at once, without reading the body
    as JSON: the message holds the status code and the text of the
    response, and the turn made its token request and nothing else. *)
Theorem token_other_status_raises
    (d i : pyval) (w : world) (fuel : nat) :
  status_code (token_answer ev w d) <> 200 ->
  status_code (token_answer ev w d) <> 400 ->
  exec ev (1 + fuel) (polling py_repr d i) w
  = (Raised (Exception ("Token request failed: "
                        +:+ str_of_int (status_code (token_answer ev w d))
                        +:+ " - " +:+ text (token_answer ev w d))),
     World (log w ++ [token_request d]) (files w)).
Proof.
  intros H2 H4. apply Z.eqb_neq in H2, H4.
  unfold token_answer, token_url in H2, H4 |- *.
  enter_turn. rewrite H2, H4. run. reflexivity.
Qed.

(** X9. When the token endpoint answers a poll with status 200 or 400 and a
    body that is not JSON, the loop ends with the decoding error of
    response.json(), after the token request alone: no retry, no sleep. *)
Theorem token_body_not_json_raises
    (d i : pyval) (w : world) (fuel : nat) :
  status_code (token_answer ev w d) = 200
  \/ status_code (token_answer ev w d) = 400 ->
  json (token_answer ev w d) = None ->
  exec ev (1 + fuel) (polling py_repr d i) w
  = (Raised JSONDecodeError, World (log w ++ [token_request d]) (files w)).
Proof.
  intros Hs Hj. unfold token_answer, token_url in Hs, Hj.
  enter_turn. destruct Hs as [Hs|Hs]; rewrite Hs; cbn [Z.eqb Pos.eqb];
    unfold response_json; rewrite Hj; cbn [try_]; run; reflexivity.
Qed.

(** X10. When the token endpoint answers a poll with status 200 and a JSON
    object that has no field access_token, the loop raises
    KeyError('access_token') before the success line is printed. *)
Theorem token_200_without_access_token_raises
    (d i : pyval) (w : world) (body : list (string * pyval)) (fuel : nat) :
  status_code (token_answer ev w d) = 200 ->
  json (token_answer ev w d) = Some (PDict body) ->
  dict_lookup "access_token" body = None ->
  exec ev (1 + fuel) (polling py_repr d i) w
  = (Raised (KeyError "access_token"),
     World (log w ++ [token_request d]) (files w)).
Proof.
  intros Hs Hj Ht. unfold token_answer, token_url in Hs, Hj.
  enter_turn. rewrite Hs. cbn [Z.eqb Pos.eqb].
  unfold response_json. rewrite Hj. cbn [try_]. run.
  cbn [py_getitem]. rewrite Ht. cbn [try_]. run. reflexivity.
Qed.

(** X11. When the token endpoint answers a poll with status 200 and an
    access_token that is not a string, the loop prints the success line and
    then raises TypeError, from the concatenation with "Bearer ": success
    is announced although no header is returned. *)
Theorem token_200_non_string_token_raises_after_success_line
    (d i : pyval) (w : world) (body : list (string * pyval)) (v : pyval)
    (fuel : nat) :
  status_code (token_answer ev w d) = 200 ->
  json (token_answer ev w d) = Some (PDict body) ->
  dict_lookup "access_token" body = Some v ->
  is_str v = false ->
  exec ev (2 + fuel) (polling py_repr d i) w
  = (Raised TypeError,
     World (log w ++ [token_request d;
                      APrint "✓ Authentication successful!"]) (files w)).
Proof.
  intros Hs Hj Ht Hv. unfold token_answer, token_url in Hs, Hj.
  enter_turn. rewrite Hs. cbn [Z.eqb Pos.eqb].
  unfold response_json. rewrite Hj. cbn [try_]. run.
  cbn [py_getitem]. rewrite Ht. cbn [try_]. run.
  destruct v; try discriminate Hv; cbn [py_str_add try_]; run;
    unfold logged; cbn [log files]; rewrite <- !app_assoc; reflexivity.
Qed.

(** X12. When the JSON body of the token answer is not an object (a list, a
    string, a number, null), a status 200 ends the loop with the TypeError
    of the subscript and a status 400 with the AttributeError of .get, each
    after the token request alone. *)
Theorem token_body_not_an_object_raises
    (d i : pyval) (w : world) (v : pyval) (fuel : nat) :
  json (token_answer ev w d) = Some v ->
  is_dict v = false ->
  (status_code (token_answer ev w d) = 200 ->
   exec ev (1 + fuel) (polling py_repr d i) w
   = (Raised TypeError, World (log w ++ [token_request d]) (files w)))
  /\ (status_code (token_answer ev w d) = 400 ->
      exec ev (1 + fuel) (polling py_repr d i) w
      = (Raised AttributeError,
         World (log w ++ [token_request d]) (files w))).
Proof.
  intros Hj Hv. unfold token_answer, token_url in Hj |- *.
  split; intros Hs; enter_turn; rewrite Hs; cbn [Z.eqb Pos.eqb];
    unfold response_json; rewrite Hj; cbn [try_]; run;
    destruct v; try discriminate Hv; cbn [py_getitem py_get try_]; run;
    reflexivity.
Qed.

(** X13. When the token endpoint answers slow_down and the interval of the
    device response is not a number (a string, null, a list, an object),
    interval += 5 raises TypeError: the turn ends there, with no print and
    no sleep. *)
Theorem slow_down_on_non_number_interval_raises
    (d i : pyval) (w : world) (fuel : nat) :
  error_is (token_answer ev w d) "slow_down" = true ->
  is_number i = false ->
  exec ev (1 + fuel) (polling py_repr d i) w
  = (Raised TypeError, World (log w ++ [token_request d]) (files w)).
Proof.
  intros H Hi. apply error_is_true in H as (Hs & body & Hj & He).
  unfold token_answer, token_url in Hs, Hj.
  enter_turn. rewrite Hs. cbn [Z.eqb Pos.eqb].
  unfold response_json. rewrite Hj. cbn [try_]. run.
  cbn [py_get]. rewrite He. cbn [try_]. run.
  cbn [py_eq_str String.eqb Ascii.eqb Bool.eqb].
  destruct i; try discriminate Hi; cbn [py_iadd_5 try_]; run; reflexivity.
Qed.

End Edges.

(** ** The device response, and the functions put together *)

Section Composition.

Variable py_repr : pyval -> string.
Variable ev : env.

Lemma exec_bind_iter (fuel : nat) {S_ A R : Type}
      (step : S_ -> py (S_ + A)) (s : S_) (k : A -> py R) (w : world) :
  exec ev fuel (ITree.bind (ITree.iter step s) k) w
  = exec ev fuel
      (ITree.bind
         (ITree.bind (step s)
            (fun lr => match lr with
                       | inl l => Tau (ITree.iter step l)
                       | inr r => Ret r
                       end)) k) w.
Proof. apply exec_observe. reflexivity. Qed.

Lemma exec_bind_ret_r (fuel : nat) :
  forall {R : Type} (t : py R) (w : world),
    exec ev fuel (ITree.bind t (fun r => Ret r)) w = exec ev fuel t w.
Proof.
  induction fuel as [|fuel IH]; intros R t w; rewrite exec_bind_head; cbn;
    destruct (observe t) as [r|t'|X e k]; try reflexivity.
  - apply IH.
  - destruct e as [ex|io]; [destruct ex; reflexivity|].
    destruct (handle ev io w) as [a w']. apply IH.
Qed.

(** A device status other than 200 ends [getHeaderOAuth] after its first
    print and the device request. *)
Lemma getHeaderOAuth_device_failure (w : world) (fuel : nat) :
  status_code (device_answer ev w) <> 200 ->
  exec ev (2 + fuel) (getHeaderOAuth py_repr) w
  = (Raised (Exception ("Device authorization request failed: "
                        +:+ text (device_answer ev w))),
     World (log w ++ [APrint "Initiating OAuth2 device flow...";
                      APost device_url device_form]) (files w)).
Proof.
  intros Hs. apply Z.eqb_neq in Hs.
  unfold device_answer, device_url, device_form in Hs |- *.
  unfold getHeaderOAuth, requests_post, print. cbn [Nat.add]. run.
  change (log (logged (APrint "Initiating OAuth2 device flow...") w))
    with (log w ++ [APrint "Initiating OAuth2 device flow..."]).
  rewrite Hs. cbn [negb]. run.
  unfold logged; cbn [log files]. rewrite <- !app_assoc. reflexivity.
Qed.

(** X15. With a device response of status 200 whose JSON object lacks one
    of the four fields, getHeaderOAuth raises KeyError on the first missing
    one, in the order verification_uri_complete, expires_in, device_code,
    interval; it has printed some of its lines by then, and made no token
    request. *)
Theorem device_200_missing_field_raises
    (w : world) (data : list (string * pyval)) (k : string) (fuel : nat) :
  status_code (device_answer ev w) = 200 ->
  json (device_answer ev w) = Some (PDict data) ->
  first_missing data = Some k ->
  exists l,
    exec ev (5 + fuel) (getHeaderOAuth py_repr) w
    = (Raised (KeyError k), World (log w ++ l) (files w))
    /\ count_token_requests l = O.
Proof.
  intros Hs Hj Hk.
  unfold device_answer, device_url, device_form in Hs, Hj.
  unfold first_missing in Hk.
  unfold getHeaderOAuth, requests_post, print. cbn [Nat.add]. run.
  change (log (logged (APrint "Initiating OAuth2 device flow...") w))
    with (log w ++ [APrint "Initiating OAuth2 device flow..."]).
  rewrite Hs. cbn [Z.eqb Pos.eqb negb].
  unfold response_json. rewrite Hj. cbn [try_]. run. cbn [py_getitem].
  destruct (dict_lookup "verification_uri_complete" data) as [uri|].
  2:{ inversion Hk; subst. cbn [try_]. run. eexists. split.
      - unfold logged; cbn [log files]. rewrite <- !app_assoc. reflexivity.
      - reflexivity. }
  cbn [try_]. run.
  destruct (dict_lookup "expires_in" data) as [expires|].
  2:{ inversion Hk; subst. cbn [try_]. run. eexists. split.
      - unfold logged; cbn [log files]. rewrite <- !app_assoc. reflexivity.
      - reflexivity. }
  cbn [try_]. run.
  destruct (dict_lookup "device_code" data) as [d|].
  2:{ inversion Hk; subst. cbn [try_]. run. eexists. split.
      - unfold logged; cbn [log files]. rewrite <- !app_assoc. reflexivity.
      - reflexivity. }
  cbn [try_]. run.
  destruct (dict_lookup "interval" data) as [i|]; [discriminate Hk|].
  inversion Hk; subst. cbn [try_]. run. eexists. split.
  - unfold logged; cbn [log files]. rewrite <- !app_assoc. reflexivity.
  - reflexivity.
Qed.

(** X16. With a device response of status 200 whose body is not JSON,
    getHeaderOAuth ends with the decoding error right after the device
    request; with a JSON body that is not an object it prints the line that
    asks to open the URL and then ends with the TypeError of the
    subscript. *)
Theorem device_200_body_not_an_object_raises
    (w : world) (fuel : nat) :
  status_code (device_answer ev w) = 200 ->
  (json (device_answer ev w) = None ->
   exec ev (2 + fuel) (getHeaderOAuth py_repr) w
   = (Raised JSONDecodeError,
      World (log w ++ [APrint "Initiating OAuth2 device flow...";
                       APost device_url device_form]) (files w)))
  /\ (forall v,
        json (device_answer ev w) = Some v -> is_dict v = false ->
        exec ev (3 + fuel) (getHeaderOAuth py_repr) w
        = (Raised TypeError,
           World (log w ++
                  [APrint "Initiating OAuth2 device flow...";
                   APost device_url device_form;
                   APrint (nl +:+ "Please open this URL in your browser:")])
                 (files w))).
Proof.
  intros Hs. unfold device_answer, device_url, device_form in Hs |- *.
  split; [intros Hj|intros v Hj Hv];
    unfold getHeaderOAuth, requests_post, print; cbn [Nat.add]; run;
    change (log (logged (APrint "Initiating OAuth2 device flow...") w))
      with (log w ++ [APrint "Initiating OAuth2 device flow..."]);
    rewrite Hs; cbn [Z.eqb Pos.eqb negb];
    unfold response_json; rewrite Hj; cbn [try_]; run.
  - unfold logged; cbn [log files]. rewrite <- !app_assoc. reflexivity.
  - destruct v; try discriminate Hv; cbn [py_getitem try_]; run;
      unfold logged; cbn [log files]; rewrite <- !app_assoc; reflexivity.
Qed.

(** X17. With use_oauth false, whatever the operator types is sent as it
    is, after "Bearer ", in the Authorization header of the one GET, which
    is streamed and goes to the service URL of the flight with the fixed
    query; nothing is checked in between. *)
Theorem manual_download_sends_typed_token
    (flight output_dir : string) (w : world) :
  snd (exec ev 2 (downloadOneFlight py_repr flight output_dir false) w)
  = World (log w ++
           [AInput "Please fill your ENVRI-ID token :"
              (operator ev (log w) "Please fill your ENVRI-ID token :");
            AGet (flight_url flight)
              [("Authorization",
                "Bearer " +:+ operator ev (log w)
                                "Please fill your ENVRI-ID token :");
               ("Accept", "application/octet-stream")] true])
          (files w).
Proof.
  unfold downloadOneFlight, getHeader, input, requests_get. run.
  rewrite exec_0_world. unfold logged, flight_url; cbn [log files].
  rewrite <- app_assoc. reflexivity.
Qed.

(** X18. With use_oauth true, a device response with the four fields and a
    first poll answered with status 200 and access_token t, the GET that
    downloadOneFlight sends carries Authorization: "Bearer " + t: the token
    issued by the token endpoint is the one shown to the resource
    server. *)
Theorem oauth_download_sends_issued_token
    (flight output_dir : string) (w : world)
    (data body : list (string * pyval)) (uri expires d i : pyval)
    (t : string) :
  status_code (device_answer ev w) = 200 ->
  json (device_answer ev w) = Some (PDict data) ->
  dict_lookup "verification_uri_complete" data = Some uri ->
  dict_lookup "expires_in" data = Some expires ->
  dict_lookup "device_code" data = Some d ->
  dict_lookup "interval" data = Some i ->
  status_code
    (token_answer ev
       (World (log w ++ instructions py_repr uri expires) (files w)) d)
  = 200 ->
  json
    (token_answer ev
       (World (log w ++ instructions py_repr uri expires) (files w)) d)
  = Some (PDict body) ->
  dict_lookup "access_token" body = Some (PStr t) ->
  snd (exec ev 8 (downloadOneFlight py_repr flight output_dir true) w)
  = World (log w ++ instructions py_repr uri expires ++
           [token_request d;
            APrint "✓ Authentication successful!";
            AGet (flight_url flight)
              [("Authorization", "Bearer " +:+ t);
               ("Accept", "application/octet-stream")] true])
          (files w).
Proof.
  intros Hs Hj Hu Hx Hd Hi Hts Htj Ht.
  unfold device_answer, device_url, device_form in Hs, Hj.
  unfold token_answer, token_url, instructions, device_url, device_form
    in Hts, Htj.
  cbn [log] in Hts, Htj.
  unfold downloadOneFlight, getHeaderOAuth, requests_post, print. run.
  change (log (logged (APrint "Initiating OAuth2 device flow...") w))
    with (log w ++ [APrint "Initiating OAuth2 device flow..."]).
  rewrite Hs. cbn [Z.eqb Pos.eqb negb].
  unfold response_json. rewrite Hj. cbn [try_]. run.
  cbn [py_getitem]. rewrite Hu. cbn [try_]. run.
  rewrite Hx. cbn [try_]. run.
  rewrite Hd. cbn [try_]. run.
  rewrite Hi. cbn [try_]. run.
  unfold polling. rewrite exec_bind_iter. unfold poll at 1.
  unfold requests_post, print, requests_get. run.
  change (token_data_of d) with (token_form d).
  unfold logged in *; cbn [log files] in *.
  rewrite <- !app_assoc in *. cbn [app] in *.
  rewrite Hts. cbn [Z.eqb Pos.eqb].
  unfold response_json. rewrite Htj. cbn [try_]. run.
  cbn [py_getitem]. rewrite Ht. cbn [try_]. run.
  cbn [py_str_add try_]. run.
  rewrite exec_0_world.
  unfold logged, instructions, flight_url, token_request.
  cbn [log files]. rewrite <- !app_assoc. reflexivity.
Qed.

(** X19. With use_oauth true and a device endpoint that answers with a
    status other than 200, downloadOneFlight lets the exception of
    getHeaderOAuth through: it raises, having sent nothing to the resource
    server and touched no file. *)
Theorem oauth_download_stops_at_device_failure
    (flight output_dir : string) (w : world) (fuel : nat) :
  status_code (device_answer ev w) <> 200 ->
  exec ev (2 + fuel) (downloadOneFlight py_repr flight output_dir true) w
  = (Raised (Exception ("Device authorization request failed: "
                        +:+ text (device_answer ev w))),
     World (log w ++ [APrint "Initiating OAuth2 device flow...";
                      APost device_url device_form]) (files w)).
Proof.
  intros Hs. unfold downloadOneFlight. apply exec_bind_raised.
  apply getHeaderOAuth_device_failure. exact Hs.
Qed.

(** X20. main prints its two banner lines and starts the device flow; when
    the device endpoint answers with a status other than 200 the exception
    leaves main, after the two lines, the first line of the flow and the
    device request. *)
Theorem main_stops_at_device_failure (w : world) (fuel : nat) :
  status_code (device_answer ev (World (log w ++ banners) (files w))) <> 200 ->
  exec ev (4 + fuel) (main py_repr) w
  = (Raised (Exception
       ("Device authorization request failed: "
        +:+ text (device_answer ev (World (log w ++ banners) (files w))))),
     World (log w ++ banners
            ++ [APrint "Initiating OAuth2 device flow...";
                APost device_url device_form]) (files w)).
Proof.
  intros Hs. unfold banners in *. unfold main, print. cbn [Nat.add]. run.
  unfold logged; cbn [log files]. rewrite <- !app_assoc. cbn [app].
  apply exec_bind_raised. unfold downloadOneFlight. apply exec_bind_raised.
  change (S (S fuel)) with (2 + fuel)%nat.
  rewrite (getHeaderOAuth_device_failure _ fuel Hs).
  cbn [log files]. rewrite <- app_assoc. reflexivity.
Qed.

(** X21. When the device flow that main starts returns a header and the
    resource server answers the GET with status 200, main sends the GET for
    flight 2023050203041714 with that header, writes the body to
    /tmp//2023050203041714.nc (two slashes: the directory it passes ends
    with one) and returns None. *)
Theorem main_downloads_to_tmp
    (w : world) (fuel : nat) (h : header) (w1 : world) (more : nat) :
  exec ev fuel (getHeaderOAuth py_repr) (World (log w ++ banners) (files w))
  = (Returned h, w1) ->
  status_code (resource_answer ev w1 "2023050203041714" h) = 200 ->
  exec ev
    (2 + (fuel
          + (4 + length (written_chunks
                           (resource_answer ev w1 "2023050203041714" h))
             + more)))
    (main py_repr) w
  = (Returned tt,
     World (log w1
            ++ [AGet (flight_url "2023050203041714") h true;
                AOpen "/tmp//2023050203041714.nc"]
            ++ map (AWrite "/tmp//2023050203041714.nc")
                 (written_chunks (resource_answer ev w1 "2023050203041714" h))
            ++ [AClose "/tmp//2023050203041714.nc";
                APrint "File downloaded : /tmp//2023050203041714.nc"])
           (<["/tmp//2023050203041714.nc" :=
                body (resource_answer ev w1 "2023050203041714" h)]>
              (files w))).
Proof.
  intros Hh Hs.
  pose proof (exec_file_free ev fuel (getHeaderOAuth py_repr)
                (World (log w ++ banners) (files w))
                (getHeaderOAuth_file_free py_repr fuel)) as Hf.
  rewrite Hh in Hf. cbn [snd files] in Hf. unfold banners in *.
  unfold main, print. cbn [Nat.add]. run.
  unfold logged; cbn [log files]. rewrite <- !app_assoc. cbn [app].
  rewrite exec_bind_ret_r. unfold downloadOneFlight.
  eapply exec_bind_returned; [exact Hh| |discriminate].
  unfold resource_answer, flight_url, body in Hs |- *. unfold requests_get.
  rewrite <- concat_nonempty.
  run. rewrite Hs. cbn [Z.eqb Pos.eqb]. run.
  unfold written_chunks. rewrite <- !Nat.add_succ_r.
  rewrite (exec_write_chunks ev _ _ _ _ []) by apply lookup_insert_eq.
  unfold print. run.
  unfold logged; cbn [log files].
  rewrite insert_insert_eq, Hf, <- !app_assoc. reflexivity.
Qed.

End Composition.

(** ** Runs under a monitor *)

Section Conforms.

Variable ev : env.
Context {St : Type}.
Variable step : St -> action -> option St.

Lemma conforms_eq (n : nat) {R : Type} (post : St -> R -> Prop) (s : St)
      (t : py R) :
  conforms step n post s t
  = match observe t with
    | RetF r => post s r
    | TauF t' =>
        match n with
        | O => True
        | S n' => conforms step n' post s t'
        end
    | VisF e k =>
        match e with
        | inl1 _ => True
        | inr1 io =>
            forall a,
              may_answer io a ->
              exists s',
                step s (action_of io a) = Some s' /\
                match n with
                | O => True
                | S n' => conforms step n' post s' (k a)
                end
        end
    end.
Proof. destruct n; reflexivity. Qed.

Lemma conforms_mono (n : nat) :
  forall {R : Type} (post : St -> R -> Prop) (s : St) (t : py R),
    conforms step (S n) post s t -> conforms step n post s t.
Proof.
  induction n as [|n IH]; intros R post s t H; rewrite conforms_eq in H |- *;
    destruct (observe t) as [r|t'|X e k]; try exact H; try exact I.
  - destruct e as [ex|io]; [exact I|]. intros a Hm.
    destruct (H a Hm) as (s' & Hs & _). exists s'. split; [exact Hs|exact I].
  - apply IH. exact H.
  - destruct e as [ex|io]; [exact I|]. intros a Hm.
    destruct (H a Hm) as (s' & Hs & Hk). exists s'.
    split; [exact Hs|]. apply IH, Hk.
Qed.

Lemma conforms_bind (n : nat) :
  forall {A R : Type} (mid : St -> A -> Prop) (post : St -> R -> Prop)
         (s : St) (t : py A) (k : A -> py R),
    conforms step n mid s t ->
    (forall s' a, mid s' a -> conforms step n post s' (k a)) ->
    conforms step n post s (ITree.bind t k).
Proof.
  induction n as [|n IH]; intros A R mid post s t k Ht Hk;
    rewrite conforms_eq in Ht; rewrite conforms_eq, observe_bind;
    destruct (observe t) as [a|t'|X e k'].
  - change (conforms step 0 post s (k a)). apply Hk, Ht.
  - exact I.
  - destruct e as [ex|io]; [exact I|]. intros a Hm.
    destruct (Ht a Hm) as (s' & Hs & _). exists s'. split; [exact Hs|exact I].
  - change (conforms step (S n) post s (k a)). apply Hk, Ht.
  - cbn. apply (IH _ _ mid); [exact Ht|].
    intros s' a Ha. apply conforms_mono, Hk, Ha.
  - destruct e as [ex|io]; [exact I|]. intros a Hm.
    destruct (Ht a Hm) as (s' & Hs & Hk'). exists s'.
    split; [exact Hs|]. cbn.
    apply (IH _ _ mid); [exact Hk'|].
    intros s2 b Hb. apply conforms_mono, Hk, Hb.
Qed.

Lemma conforms_ret (n : nat) {R : Type} (post : St -> R -> Prop) (s : St)
      (r : R) :
  post s r -> conforms step n post s (Ret r : py R).
Proof. intros H. destruct n; exact H. Qed.

Lemma conforms_raise (n : nat) {R : Type} (post : St -> R -> Prop) (s : St)
      (x : exn) :
  conforms step n post s (raise x : py R).
Proof. destruct n; exact I. Qed.

Lemma conforms_call (n : nat) {A : Type} (post : St -> A -> Prop) (s : St)
      (e : ioE A) :
  (forall a, may_answer e a ->
     exists s', step s (action_of e a) = Some s' /\ post s' a) ->
  conforms step n post s (call e).
Proof.
  intros H. rewrite conforms_eq. cbn. intros a Hm.
  destruct (H a Hm) as (s' & Hs & Hp). exists s'. split; [exact Hs|].
  destruct n; [exact I|]. apply conforms_ret, Hp.
Qed.

Lemma conforms_bind_ret (n : nat) {A R : Type} (post : St -> R -> Prop)
      (s : St) (a : A) (k : A -> py R) :
  conforms step n post s (k a) ->
  conforms step n post s (ITree.bind (Ret a) k).
Proof.
  intros H. apply conforms_bind with (mid := fun s' x => s' = s /\ x = a).
  - apply conforms_ret. split; reflexivity.
  - intros s' x [-> ->]. exact H.
Qed.

Lemma conforms_bind_raise (n : nat) {A R : Type} (post : St -> R -> Prop)
      (s : St) (x : exn) (k : A -> py R) :
  conforms step n post s (ITree.bind (raise x) k).
Proof.
  apply conforms_bind with (mid := fun _ _ => False).
  - apply conforms_raise.
  - intros s' a [].
Qed.

Lemma conforms_bind_call (n : nat) {A R : Type} (post : St -> R -> Prop)
      (s s' : St) (e : ioE A) (k : A -> py R) :
  (forall a, step s (action_of e a) = Some s') ->
  (forall a, may_answer e a -> conforms step n post s' (k a)) ->
  conforms step n post s (ITree.bind (call e) k).
Proof.
  intros He Hk.
  apply conforms_bind with (mid := fun s2 a => s2 = s' /\ may_answer e a).
  - apply conforms_call. intros a Hm. exists s'.
    split; [apply He|split; [reflexivity|exact Hm]].
  - intros s2 a [-> Hm]. apply Hk, Hm.
Qed.

Lemma conforms_iter {S_ R : Type} (inv : St -> S_ -> Prop)
      (post : St -> R -> Prop) (body : S_ -> py (S_ + R)) :
  (forall m s x, inv s x ->
     conforms step m (fun s' lr => match lr with
                                   | inl x' => inv s' x'
                                   | inr r => post s' r
                                   end) s (body x)) ->
  forall n s x, inv s x -> conforms step n post s (ITree.iter body x).
Proof.
  intros Hbody. induction n as [|n IH]; intros s x Hx.
  - assert (H : conforms step 0 post s
                  (ITree.bind (body x)
                     (fun lr => match lr with
                                | inl l => Tau (ITree.iter body l)
                                | inr r => Ret r
                                end))).
    { eapply conforms_bind; [apply Hbody, Hx|].
      intros s' [l|r] H; [exact I|exact H]. }
    exact H.
  - assert (H : conforms step (S n) post s
                  (ITree.bind (body x)
                     (fun lr => match lr with
                                | inl l => Tau (ITree.iter body l)
                                | inr r => Ret r
                                end))).
    { eapply conforms_bind; [apply Hbody, Hx|].
      intros s' [l|r] H; [|exact H]. cbn. apply IH, H. }
    exact H.
Qed.

(** A computation that keeps to actions on which the monitor stays where
    it is conforms, and leaves the monitor where it was. *)
Lemma keeps_to_conforms (Q : action -> Prop) (s : St) (n : nat) :
  (forall a, Q a -> step s a = Some s) ->
  forall {R : Type} (post : R -> Prop) (t : py R),
    keeps_to Q n post t ->
    conforms step n (fun s' r => s' = s /\ post r) s t.
Proof.
  intros HQ. induction n as [|n IH]; intros R post t H;
    rewrite keeps_to_eq in H; rewrite conforms_eq;
    destruct (observe t) as [r|t'|X e k]; try exact I.
  - split; [reflexivity|exact H].
  - destruct e as [ex|io]; [exact I|]. intros a Hm.
    destruct (H a Hm) as [Ha _]. exists s. split; [apply HQ, Ha|exact I].
  - split; [reflexivity|exact H].
  - apply IH, H.
  - destruct e as [ex|io]; [exact I|]. intros a Hm.
    destruct (H a Hm) as [Ha Hk]. exists s.
    split; [apply HQ, Ha|apply IH, Hk].
Qed.

(** The monitor accepts what a conforming run adds to the log. *)
Lemma exec_conforms (fuel : nat) :
  forall {R : Type} (post : St -> R -> Prop) (s : St) (t : py R) (w : world),
    conforms step fuel post s t ->
    exists l s',
      log (snd (exec ev fuel t w)) = log w ++ l
      /\ monitor step s l = Some s'.
Proof.
  induction fuel as [|fuel IH]; intros R post s t w H;
    rewrite conforms_eq in H; cbn;
    destruct (observe t) as [r|t'|X e k];
    try (exists [], s; rewrite app_nil_r; split; reflexivity).
  - destruct e as [ex|io]; [destruct ex|];
      exists [], s; rewrite app_nil_r; split; reflexivity.
  - apply (IH _ post), H.
  - destruct e as [ex|io].
    { destruct ex. exists [], s. rewrite app_nil_r. split; reflexivity. }
    pose proof (handle_log ev io w) as Hlog.
    pose proof (handle_may_answer ev io w) as Hm.
    destruct (handle ev io w) as [a w1]. cbn [fst snd] in Hlog, Hm.
    destruct (H a Hm) as (s1 & Hs & Hk).
    destruct (IH _ post s1 (k a) w1 Hk) as (l & s' & Hl & Hacc).
    exists (action_of io a :: l), s'. split.
    + rewrite Hl, Hlog, <- app_assoc. reflexivity.
    + cbn [monitor]. rewrite Hs. exact Hacc.
Qed.

End Conforms.

Ltac conforms_step :=
  match goal with
  | |- conforms _ _ _ _ (ITree.bind (call _) _) =>
      eapply conforms_bind_call; [intros ?; reflexivity|intros ? ?]
  | |- conforms _ _ _ _ (ITree.bind (try_ ?x) _) =>
      destruct x eqn:?; cbn [try_]
  | |- conforms _ _ _ _ (ITree.bind (Ret _) _) => apply conforms_bind_ret
  | |- conforms _ _ _ _ (ITree.bind (raise _) _) => apply conforms_bind_raise
  | |- conforms _ _ _ _ (raise _) => apply conforms_raise
  | |- conforms _ _ _ _ (Ret _) => apply conforms_ret
  | |- conforms _ _ _ _ (if ?c then _ else _) => destruct c eqn:?
  end.

Section Protocol.

Variable py_repr : pyval -> string.
Variable ev : env.

Lemma monitor_app {St : Type} (step : St -> action -> option St)
      (l1 l2 : list action) :
  forall s s',
    monitor step s (l1 ++ l2) = Some s' ->
    exists sm, monitor step s l1 = Some sm /\ monitor step sm l2 = Some s'.
Proof.
  induction l1 as [|a l1 IH]; intros s s' H.
  - exists s. split; [reflexivity|exact H].
  - cbn [app monitor] in H |- *. destruct (step s a) as [s1|];
      [apply IH, H|discriminate H].
Qed.

(** A turn of the loop, started where a request is accepted, keeps the
    order of the monitor and continues where a request is accepted. *)
Lemma poll_conforms (m : nat) (d i : pyval) :
  conforms pace_step m
    (fun s (lr : pyval + header) =>
       match lr with
       | inl _ => s = Ready
       | inr _ => True
       end) Ready (poll py_repr d i).
Proof.
  unfold poll, requests_post, print, time_sleep.
  repeat conforms_step; first [exact I|reflexivity].
Qed.

Lemma polling_conforms (n : nat) (d i : pyval) :
  conforms pace_step n (fun _ (_ : header) => True) Ready
    (polling py_repr d i).
Proof.
  unfold polling.
  apply (conforms_iter pace_step (fun s _ => s = Ready));
    [|reflexivity].
  intros m s x ->. apply poll_conforms.
Qed.

(** X22. Whatever the token endpoint answers, the loop of getHeaderOAuth
    never makes two requests in a row: an action that comes right before a
    request of the loop is a sleep. *)
Theorem polling_sleeps_between_requests
    (d i : pyval) (fuel : nat) (w : world) :
  exists l,
    log (snd (exec ev fuel (polling py_repr d i) w)) = log w ++ l
    /\ forall l1 a url data l2,
         l = l1 ++ a :: APost url data :: l2 -> exists v, a = ASleep v.
Proof.
  destruct (exec_conforms ev pace_step fuel _ Ready _ w
              (polling_conforms fuel d i)) as (l & s' & Hl & Hacc).
  exists l. split; [exact Hl|].
  intros l1 a url data l2 ->.
  apply monitor_app in Hacc as (sm & _ & Hacc).
  cbn [monitor] in Hacc.
  destruct sm, a; cbn in Hacc; try discriminate Hacc.
  eexists. reflexivity.
Qed.

Lemma write_chunks_sends_no_get (n : nat) (path : string)
      (chunks : list (list Byte.byte)) :
  conforms one_get n (fun s _ => s = true) true (write_chunks path chunks).
Proof.
  induction chunks as [|chunk rest IH]; cbn [write_chunks].
  - apply conforms_ret. reflexivity.
  - destruct (bytes_truth chunk).
    + eapply conforms_bind_call; [intros a; reflexivity|intros a _; exact IH].
    + apply conforms_bind_ret. exact IH.
Qed.

Lemma downloadOneFlight_conforms (n : nat) (flight output_dir : string)
      (use_oauth : bool) :
  conforms one_get n (fun _ _ => True) false
    (downloadOneFlight py_repr flight output_dir use_oauth).
Proof.
  unfold downloadOneFlight.
  apply conforms_bind
    with (mid := fun s (h : header) => s = false /\ bearer_header h).
  - destruct use_oauth.
    + apply (keeps_to_conforms one_get oauth_action);
        [|apply getHeaderOAuth_keeps_to].
      intros a Ha. destruct a; try contradiction; reflexivity.
    + apply (keeps_to_conforms one_get prompt_action);
        [|apply getHeader_keeps_to].
      intros a Ha. destruct a; try contradiction; reflexivity.
  - intros s h [-> _]. unfold requests_get, print.
    repeat conforms_step.
    + apply conforms_bind with (mid := fun s (_ : unit) => s = true);
        [apply write_chunks_sends_no_get|intros s' _ ->].
      repeat conforms_step.
      apply conforms_call. intros ? _. exists true. split; [reflexivity|exact I].
    + apply conforms_call. intros ? _. exists true. split; [reflexivity|exact I].
Qed.

Lemma monitor_one_get (l : list action) :
  forall b b',
    monitor one_get b l = Some b' ->
    (count_gets l + Nat.b2n b = Nat.b2n b')%nat.
Proof.
  induction l as [|a l IH]; intros b b' H.
  - inversion H; subst. reflexivity.
  - cbn [monitor] in H.
    destruct a; cbn [one_get count_gets] in H |- *;
      try (apply IH; exact H).
    destruct b; [discriminate H|]. apply IH in H. cbn in H |- *. lia.
Qed.

(** X23. Whatever the servers answer and whichever way the header is got,
    downloadOneFlight sends at most one GET: the request to the resource
    server is never repeated. *)
Theorem downloadOneFlight_sends_at_most_one_get
    (flight output_dir : string) (use_oauth : bool) (fuel : nat) (w : world) :
  exists l,
    log (snd (exec ev fuel
                (downloadOneFlight py_repr flight output_dir use_oauth) w))
    = log w ++ l
    /\ (count_gets l <= 1)%nat.
Proof.
  destruct (exec_conforms ev one_get fuel _ false _ w
              (downloadOneFlight_conforms fuel flight output_dir use_oauth))
    as (l & s' & Hl & Hacc).
  exists l. split; [exact Hl|].
  apply monitor_one_get in Hacc. destruct s'; cbn in Hacc; lia.
Qed.

End Protocol.

(** ** The edge cases, run *)

Lemma bearer_only_witness :
  bearer_header [("Authorization", "Bearer tok123");
                 ("Accept", "application/octet-stream")].
Proof.
  apply (getHeaderOAuth_returns_only_bearer_headers repr_plain
           pending_then_token 11 fresh).
  vm_compute. reflexivity.
Defined.

Lemma token_500_witness :
  exec (answering (text_response 500 "Internal Server Error")
          (text_response 200 "NCDATA"))
    1 (polling repr_plain (PStr "abc") (PInt 5)) fresh
  = (Raised (Exception
       "Token request failed: 500 - Internal Server Error"),
     World [token_request (PStr "abc")] ∅).
Proof.
  apply (token_other_status_raises repr_plain
           (answering (text_response 500 "Internal Server Error")
              (text_response 200 "NCDATA"))
           (PStr "abc") (PInt 5) fresh 0); discriminate.
Defined.

Lemma token_not_json_witness :
  exec (answering (text_response 200 "<html>") (text_response 200 "NCDATA"))
    1 (polling repr_plain (PStr "abc") (PInt 5)) fresh
  = (Raised JSONDecodeError, World [token_request (PStr "abc")] ∅).
Proof.
  apply (token_body_not_json_raises repr_plain
           (answering (text_response 200 "<html>")
              (text_response 200 "NCDATA"))
           (PStr "abc") (PInt 5) fresh 0); [left|]; reflexivity.
Defined.

Lemma token_without_access_token_witness :
  exec (answering (json_response 200 (PDict [("token_type", PStr "Bearer")]))
          (text_response 200 "NCDATA"))
    1 (polling repr_plain (PStr "abc") (PInt 5)) fresh
  = (Raised (KeyError "access_token"),
     World [token_request (PStr "abc")] ∅).
Proof.
  apply (token_200_without_access_token_raises repr_plain
           (answering
              (json_response 200 (PDict [("token_type", PStr "Bearer")]))
              (text_response 200 "NCDATA"))
           (PStr "abc") (PInt 5) fresh
           [("token_type", PStr "Bearer")] 0); reflexivity.
Defined.

Lemma token_non_string_witness :
  exec (answering (json_response 200 (PDict [("access_token", PInt 42)]))
          (text_response 200 "NCDATA"))
    2 (polling repr_plain (PStr "abc") (PInt 5)) fresh
  = (Raised TypeError,
     World [token_request (PStr "abc");
            APrint "✓ Authentication successful!"] ∅).
Proof.
  apply (token_200_non_string_token_raises_after_success_line repr_plain
           (answering (json_response 200 (PDict [("access_token", PInt 42)]))
              (text_response 200 "NCDATA"))
           (PStr "abc") (PInt 5) fresh
           [("access_token", PInt 42)] (PInt 42) 0); reflexivity.
Defined.

Lemma token_not_an_object_witness :
  exec (answering (json_response 200 (PList [])) (text_response 200 "NCDATA"))
    1 (polling repr_plain (PStr "abc") (PInt 5)) fresh
  = (Raised TypeError, World [token_request (PStr "abc")] ∅)
  /\ exec (answering (json_response 400 (PStr "denied"))
             (text_response 200 "NCDATA"))
       1 (polling repr_plain (PStr "abc") (PInt 5)) fresh
     = (Raised AttributeError, World [token_request (PStr "abc")] ∅).
Proof.
  split.
  - apply (proj1 (token_body_not_an_object_raises repr_plain
                    (answering (json_response 200 (PList []))
                       (text_response 200 "NCDATA"))
                    (PStr "abc") (PInt 5) fresh (PList []) 0
                    eq_refl eq_refl)).
    reflexivity.
  - apply (proj2 (token_body_not_an_object_raises repr_plain
                    (answering (json_response 400 (PStr "denied"))
                       (text_response 200 "NCDATA"))
                    (PStr "abc") (PInt 5) fresh (PStr "denied") 0
                    eq_refl eq_refl)).
    reflexivity.
Defined.

Lemma slow_down_string_interval_witness :
  exec (answering (token_error "slow_down") (text_response 200 "NCDATA"))
    1 (polling repr_plain (PStr "abc") (PStr "5")) fresh
  = (Raised TypeError, World [token_request (PStr "abc")] ∅).
Proof.
  apply (slow_down_on_non_number_interval_raises repr_plain
           (answering (token_error "slow_down") (text_response 200 "NCDATA"))
           (PStr "abc") (PStr "5") fresh 0); reflexivity.
Defined.

Lemma device_missing_interval_witness :
  exists l,
    exec (scripted ""
            (json_response 200
               (PDict [("device_code", PStr "abc");
                       ("expires_in", PInt 600);
                       ("verification_uri_complete", PStr "https://x")]))
            (fun _ => token_ok "tok123") (text_response 200 "NCDATA"))
      5 (getHeaderOAuth repr_plain) fresh
    = (Raised (KeyError "interval"), World ([] ++ l) ∅)
    /\ count_token_requests l = O.
Proof.
  apply (device_200_missing_field_raises repr_plain
           (scripted ""
              (json_response 200
                 (PDict [("device_code", PStr "abc");
                         ("expires_in", PInt 600);
                         ("verification_uri_complete", PStr "https://x")]))
              (fun _ => token_ok "tok123") (text_response 200 "NCDATA"))
           fresh
           [("device_code", PStr "abc"); ("expires_in", PInt 600);
            ("verification_uri_complete", PStr "https://x")]
           "interval" 0); reflexivity.
Defined.

Lemma device_not_json_witness :
  exec (scripted "" (text_response 200 "<html>")
          (fun _ => token_ok "tok123") (text_response 200 "NCDATA"))
    2 (getHeaderOAuth repr_plain) fresh
  = (Raised JSONDecodeError,
     World [APrint "Initiating OAuth2 device flow...";
            APost device_url device_form] ∅).
Proof.
  apply (proj1 (device_200_body_not_an_object_raises repr_plain
                  (scripted "" (text_response 200 "<html>")
                     (fun _ => token_ok "tok123")
                     (text_response 200 "NCDATA"))
                  fresh 0 eq_refl)).
  reflexivity.
Defined.

Lemma oauth_download_witness :
  snd (exec (answering (token_ok "tok123") (text_response 200 "NCDATA")) 8
         (downloadOneFlight repr_plain "F1" "/tmp" true) fresh)
  = World (instructions repr_plain (PStr "https://x") (PInt 600)
           ++ [token_request (PStr "abc");
               APrint "✓ Authentication successful!";
               AGet (flight_url "F1")
                 [("Authorization", "Bearer tok123");
                  ("Accept", "application/octet-stream")] true]) ∅.
Proof.
  apply (oauth_download_sends_issued_token repr_plain
           (answering (token_ok "tok123") (text_response 200 "NCDATA"))
           "F1" "/tmp" fresh
           [("device_code", PStr "abc"); ("interval", PInt 5);
            ("expires_in", PInt 600);
            ("verification_uri_complete", PStr "https://x")]
           [("access_token", PStr "tok123")]
           (PStr "https://x") (PInt 600) (PStr "abc") (PInt 5) "tok123");
    reflexivity.
Defined.

Lemma oauth_download_device_failure_witness :
  exec (scripted "" (text_response 503 "Service Unavailable")
          (fun _ => token_ok "tok123") (text_response 200 "NCDATA"))
    2 (downloadOneFlight repr_plain "F1" "/tmp" true) fresh
  = (Raised (Exception
       "Device authorization request failed: Service Unavailable"),
     World [APrint "Initiating OAuth2 device flow...";
            APost device_url device_form] ∅).
Proof.
  apply (oauth_download_stops_at_device_failure repr_plain
           (scripted "" (text_response 503 "Service Unavailable")
              (fun _ => token_ok "tok123") (text_response 200 "NCDATA"))
           "F1" "/tmp" fresh 0).
  discriminate.
Defined.

Lemma main_device_failure_witness :
  exec (scripted "" (text_response 503 "Service Unavailable")
          (fun _ => token_ok "tok123") (text_response 200 "NCDATA"))
    4 (main repr_plain) fresh
  = (Raised (Exception
       "Device authorization request failed: Service Unavailable"),
     World (banners ++ [APrint "Initiating OAuth2 device flow...";
                        APost device_url device_form]) ∅).
Proof.
  apply (main_stops_at_device_failure repr_plain
           (scripted "" (text_response 503 "Service Unavailable")
              (fun _ => token_ok "tok123") (text_response 200 "NCDATA"))
           fresh 0).
  discriminate.
Defined.

Lemma main_download_witness :
  exec (answering (token_ok "tok123") (text_response 200 "NCDATA")) 14
    (main repr_plain) fresh
  = (Returned tt,
     World (banners
            ++ instructions repr_plain (PStr "https://x") (PInt 600)
            ++ [token_request (PStr "abc");
                APrint "✓ Authentication successful!";
                AGet (flight_url "2023050203041714")
                  [("Authorization", "Bearer tok123");
                   ("Accept", "application/octet-stream")] true;
                AOpen "/tmp//2023050203041714.nc";
                AWrite "/tmp//2023050203041714.nc"
                  (list_byte_of_string "NCDATA");
                AClose "/tmp//2023050203041714.nc";
                APrint "File downloaded : /tmp//2023050203041714.nc"])
           (<["/tmp//2023050203041714.nc" :=
                list_byte_of_string "NCDATA"]> ∅)).
Proof.
  apply (main_downloads_to_tmp repr_plain
           (answering (token_ok "tok123") (text_response 200 "NCDATA"))
           fresh 7
           [("Authorization", "Bearer tok123");
            ("Accept", "application/octet-stream")]
           (World (banners
                   ++ instructions repr_plain (PStr "https://x") (PInt 600)
                   ++ [token_request (PStr "abc");
                       APrint "✓ Authentication successful!"]) ∅)
           0); reflexivity.
Defined.

(** ** Runs under an operating system that can refuse *)

Section ExecOs.

Variable ev : env.
Variable o : os.

Lemma exec_os_observe (fuel : nat) {R : Type} (t t' : py R) (w : world) :
  observe t = observe t' -> exec_os ev o fuel t w = exec_os ev o fuel t' w.
Proof.
  intros H. destruct fuel; cbn; rewrite H; reflexivity.
Qed.

Lemma exec_os_bind_ret (fuel : nat) {A R : Type} (a : A) (k : A -> py R) w :
  exec_os ev o fuel (ITree.bind (Ret a) k) w = exec_os ev o fuel (k a) w.
Proof. apply exec_os_observe. reflexivity. Qed.

(** A call that is not refused is made; a refused one raises. *)
Lemma exec_os_bind_call (fuel : nat) {A R : Type} (e : ioE A)
      (k : A -> py R) w :
  exec_os ev o (S fuel) (ITree.bind (call e) k) w
  = match refusal o (action_of e (fst (handle ev e w))) with
    | Some x => (Raised x, w)
    | None => exec_os ev o fuel (k (fst (handle ev e w))) (snd (handle ev e w))
    end.
Proof.
  cbn. destruct (handle ev e w) as [a w']. cbn.
  destruct (refusal o (action_of e a)); [reflexivity|].
  apply exec_os_bind_ret.
Qed.

Lemma exec_os_call (fuel : nat) {A : Type} (e : ioE A) w :
  exec_os ev o (S fuel) (call e) w
  = match refusal o (action_of e (fst (handle ev e w))) with
    | Some x => (Raised x, w)
    | None => (Returned (fst (handle ev e w)), snd (handle ev e w))
    end.
Proof.
  cbn. destruct (handle ev e w) as [a w']. cbn.
  destruct (refusal o (action_of e a)); [reflexivity|].
  destruct fuel; reflexivity.
Qed.

Lemma exec_os_bind_call_0 {A R : Type} (e : ioE A) (k : A -> py R) w :
  exec_os ev o 0 (ITree.bind (call e) k) w = (Running, w).
Proof. reflexivity. Qed.

Lemma exec_os_bind_raise (fuel : nat) {A R : Type} (x : exn)
      (k : A -> py R) w :
  exec_os ev o fuel (ITree.bind (raise x) k) w = (Raised x, w).
Proof. destruct fuel; reflexivity. Qed.

Lemma exec_os_raise (fuel : nat) {R : Type} (x : exn) w :
  exec_os ev o fuel (raise x : py R) w = (Raised x, w).
Proof. destruct fuel; reflexivity. Qed.

Lemma exec_os_ret (fuel : nat) {R : Type} (r : R) w :
  exec_os ev o fuel (Ret r : py R) w = (Returned r, w).
Proof. destruct fuel; reflexivity. Qed.

Lemma exec_os_tau (fuel : nat) {R : Type} (t : py R) w :
  exec_os ev o (S fuel) (Tau t) w = exec_os ev o fuel t w.
Proof. reflexivity. Qed.

Lemma exec_os_0_world {R : Type} (t : py R) (w : world) :
  snd (exec_os ev o 0 t w) = w.
Proof.
  cbn. destruct (observe t) as [r|t'|X e k]; [reflexivity|reflexivity|].
  destruct e as [ex|io]; [destruct ex|]; reflexivity.
Qed.

Lemma exec_os_mono (fuel : nat) {R : Type} (t : py R) w out w' :
  exec_os ev o fuel t w = (out, w') -> out <> Running ->
  forall more, exec_os ev o (fuel + more) t w = (out, w').
Proof.
  revert t w. induction fuel as [|fuel IH]; intros t w H Ho more.
  - cbn in H. destruct more as [|more]; [exact H|].
    cbn. destruct (observe t) as [r|t'|X e k]; [exact H| |].
    + inversion H; subst; contradiction.
    + destruct e as [ex|io]; [exact H|].
      inversion H; subst; contradiction.
  - cbn in H |- *. destruct (observe t) as [r|t'|X e k]; [exact H| |].
    + apply IH; assumption.
    + destruct e as [ex|io]; [exact H|].
      destruct (handle ev io w) as [a w1].
      destruct (refusal o (action_of io a)); [exact H|].
      apply IH; assumption.
Qed.

Lemma exec_os_bind_head (fuel : nat) {A R : Type} (t : py A)
      (k : A -> py R) w :
  exec_os ev o fuel (ITree.bind t k) w
  = match observe t with
    | RetF a => exec_os ev o fuel (k a) w
    | TauF t' => exec_os ev o fuel (Tau (ITree.bind t' k)) w
    | VisF e k' => exec_os ev o fuel (Vis e (fun x => ITree.bind (k' x) k)) w
    end.
Proof.
  destruct (observe t) as [a|t'|X e k'] eqn:Ht;
    apply exec_os_observe; rewrite observe_bind, Ht; reflexivity.
Qed.

Lemma exec_os_bind_returned (fuel : nat) {A R : Type} (t : py A)
      (k : A -> py R) w a w1 :
  exec_os ev o fuel t w = (Returned a, w1) ->
  forall more out w2,
    exec_os ev o more (k a) w1 = (out, w2) -> out <> Running ->
    exec_os ev o (fuel + more) (ITree.bind t k) w = (out, w2).
Proof.
  revert t w. induction fuel as [|fuel IH]; intros t w H more out w2 Hk Ho;
    rewrite exec_os_bind_head; cbn in H;
    destruct (observe t) as [r|t'|X e k'].
  - inversion H; subst. exact Hk.
  - discriminate H.
  - destruct e as [ex|io]; [destruct ex|]; discriminate H.
  - inversion H; subst. rewrite Nat.add_comm. apply exec_os_mono; assumption.
  - cbn. eapply IH; eassumption.
  - destruct e as [ex|io]; [destruct ex; discriminate H|].
    cbn. destruct (handle ev io w) as [b w'].
    destruct (refusal o (action_of io b)); [discriminate H|].
    eapply IH; eassumption.
Qed.

Lemma exec_os_iter (fuel : nat) {S_ R : Type} (step : S_ -> py (S_ + R))
      (i : S_) w :
  exec_os ev o fuel (ITree.iter step i) w
  = exec_os ev o fuel
      (ITree.bind (step i)
         (fun lr => match lr with
                    | inl l => Tau (ITree.iter step l)
                    | inr r => Ret r
                    end)) w.
Proof. apply exec_os_observe. reflexivity. Qed.

Lemma exec_os_bind_bind (fuel : nat) {A B R : Type}
      (t : py A) (k : A -> py B) (h : B -> py R) w :
  exec_os ev o fuel (ITree.bind (ITree.bind t k) h) w
  = exec_os ev o fuel (ITree.bind t (fun x => ITree.bind (k x) h)) w.
Proof.
  revert t w. induction fuel as [|fuel IH]; intros t w;
    rewrite (exec_os_bind_head _ (ITree.bind t k)), (exec_os_bind_head _ t);
    rewrite observe_bind; destruct (observe t) as [a|t'|X e k'];
    cbn [observe _observe].
  - rewrite <- exec_os_bind_head. reflexivity.
  - reflexivity.
  - destruct e as [ex|io]; [destruct ex|]; reflexivity.
  - rewrite <- exec_os_bind_head. reflexivity.
  - cbn. apply IH.
  - destruct e as [ex|io]; [destruct ex; reflexivity|].
    cbn. destruct (handle ev io w) as [b w'].
    destruct (refusal o (action_of io b)); [reflexivity|]. apply IH.
Qed.

(** A computation that makes no call on a file ends with the files it
    started with, refused or not. *)
Lemma exec_os_file_free (fuel : nat) :
  forall {R : Type} (t : py R) (w : world),
    file_free fuel t -> files (snd (exec_os ev o fuel t w)) = files w.
Proof.
  induction fuel as [|fuel IH]; intros R t w H;
    rewrite file_free_eq in H; cbn;
    destruct (observe t) as [r|t'|X e k]; try reflexivity.
  - destruct e as [ex|io]; [destruct ex|]; reflexivity.
  - apply IH, H.
  - destruct e as [ex|io]; [destruct ex; reflexivity|].
    destruct H as [He Hk].
    pose proof (handle_files ev io w He) as Hf.
    destruct (handle ev io w) as [a w']. cbn in Hf.
    destruct (refusal o (action_of io a)); [reflexivity|].
    rewrite IH by apply Hk. exact Hf.
Qed.

End ExecOs.

Ltac run_os_step :=
  first [ rewrite exec_os_bind_bind
        | rewrite exec_os_bind_ret
        | rewrite exec_os_bind_call; cbn [handle fst snd action_of refusal]
        | rewrite exec_os_bind_call_0
        | rewrite exec_os_call; cbn [handle fst snd action_of refusal]
        | rewrite exec_os_bind_raise
        | rewrite exec_os_tau
        | rewrite exec_os_ret
        | rewrite exec_os_raise ].

Ltac run_os := repeat run_os_step.

Ltac enter_turn_os :=
  unfold polling; rewrite exec_os_iter; unfold poll at 1;
  unfold requests_post, print, time_sleep; cbn [Nat.add]; run_os;
  repeat match goal with
         | |- context [token_data_of ?d] =>
             change (token_data_of d) with (token_form d)
         end.

(** * The device flow where a sleep can be refused *)

Section DeviceFlowOs.

Variable py_repr : pyval -> string.
Variable ev : env.
Variable o : os.

Lemma polling_requests_os (d i : pyval) (w : world) :
  snd (exec_os ev o 1 (polling py_repr d i) w)
  = World (log w ++ [APost token_url (token_form d)]) (files w).
Proof.
  enter_turn_os. rewrite exec_os_0_world. reflexivity.
Qed.

Lemma polling_pending_turn_os (d i : pyval) (w : world) (fuel : nat) :
  error_is (token_answer ev w d) "authorization_pending" = true ->
  sleep_refusal o i = None ->
  exec_os ev o (4 + fuel) (polling py_repr d i) w
  = exec_os ev o fuel (polling py_repr d i)
      (World (log w ++ pending_turn d i) (files w)).
Proof.
  intros H Hz. apply error_is_true in H as (Hs & body & Hj & He).
  unfold token_answer, token_url in Hs, Hj.
  enter_turn_os. rewrite Hs. cbn [Z.eqb Pos.eqb].
  unfold response_json. rewrite Hj. cbn [try_]. run_os.
  cbn [py_get]. rewrite He. cbn [try_]. run_os.
  cbn [py_eq_str String.eqb Ascii.eqb Bool.eqb]. run_os.
  rewrite Hz. run_os.
  unfold logged; cbn [log files]. rewrite <- !app_assoc. reflexivity.
Qed.

(** The sleep of a pending turn refused: the exception leaves the loop after
    the request and the line, and nothing is slept. *)
Lemma polling_pending_sleep_refused
    (d i : pyval) (w : world) (x : exn) (fuel : nat) :
  error_is (token_answer ev w d) "authorization_pending" = true ->
  sleep_refusal o i = Some x ->
  exec_os ev o (3 + fuel) (polling py_repr d i) w
  = (Raised x,
     World (log w ++ [token_request d;
                      APrint "⏳ Still waiting for authorization..."])
           (files w)).
Proof.
  intros H Hz. apply error_is_true in H as (Hs & body & Hj & He).
  unfold token_answer, token_url in Hs, Hj.
  enter_turn_os. rewrite Hs. cbn [Z.eqb Pos.eqb].
  unfold response_json. rewrite Hj. cbn [try_]. run_os.
  cbn [py_get]. rewrite He. cbn [try_]. run_os.
  cbn [py_eq_str String.eqb Ascii.eqb Bool.eqb]. run_os.
  rewrite Hz.
  unfold logged; cbn [log files]. rewrite <- !app_assoc. reflexivity.
Qed.

Lemma polling_slow_down_turn_os (d : pyval) (i : Z) (w : world) (fuel : nat) :
  error_is (token_answer ev w d) "slow_down" = true ->
  sleep_refusal o (PInt (i + 5)) = None ->
  exec_os ev o (4 + fuel) (polling py_repr d (PInt i)) w
  = exec_os ev o fuel (polling py_repr d (PInt (i + 5)))
      (World (log w ++ slow_down_turn d i) (files w)).
Proof.
  intros H Hz. apply error_is_true in H as (Hs & body & Hj & He).
  unfold token_answer, token_url in Hs, Hj.
  enter_turn_os. rewrite Hs. cbn [Z.eqb Pos.eqb].
  unfold response_json. rewrite Hj. cbn [try_]. run_os.
  cbn [py_get]. rewrite He. cbn [try_]. run_os.
  cbn [py_eq_str String.eqb Ascii.eqb Bool.eqb py_iadd_5 try_]. run_os.
  rewrite Hz. run_os.
  unfold logged; cbn [log files py_str]. rewrite <- !app_assoc. reflexivity.
Qed.

(** The sleep of a [slow_down] turn refused: the interval was raised and the
    line printed, then the exception leaves the loop. *)
Lemma polling_slow_down_sleep_refused
    (d : pyval) (i : Z) (w : world) (x : exn) (fuel : nat) :
  error_is (token_answer ev w d) "slow_down" = true ->
  sleep_refusal o (PInt (i + 5)) = Some x ->
  exec_os ev o (3 + fuel) (polling py_repr d (PInt i)) w
  = (Raised x,
     World (log w ++ [token_request d;
                      APrint ("⏳ Slowing down polling to "
                              +:+ str_of_int (i + 5) +:+ "s intervals...")])
           (files w)).
Proof.
  intros H Hz. apply error_is_true in H as (Hs & body & Hj & He).
  unfold token_answer, token_url in Hs, Hj.
  enter_turn_os. rewrite Hs. cbn [Z.eqb Pos.eqb].
  unfold response_json. rewrite Hj. cbn [try_]. run_os.
  cbn [py_get]. rewrite He. cbn [try_]. run_os.
  cbn [py_eq_str String.eqb Ascii.eqb Bool.eqb py_iadd_5 try_]. run_os.
  rewrite Hz.
  unfold logged; cbn [log files py_str]. rewrite <- !app_assoc. reflexivity.
Qed.

(** The turns of [n] consecutive [slow_down] answers, each of whose sleeps
    is accepted. *)
Lemma polling_slow_down_turns_os (d : pyval) (n : nat) :
  forall (i : Z) (w : world),
  (forall k, (k < n)%nat ->
     error_is (post_server ev (log w ++ slow_down_turns d i k) token_url
                 (token_form d)) "slow_down" = true) ->
  (forall k, (k < n)%nat ->
     sleep_refusal o (PInt (i + 5 * Z.of_nat (S k))) = None) ->
  forall fuel,
    exec_os ev o (4 * n + fuel) (polling py_repr d (PInt i)) w
    = exec_os ev o fuel (polling py_repr d (PInt (i + 5 * Z.of_nat n)))
        (World (log w ++ slow_down_turns d i n) (files w)).
Proof.
  induction n as [|n IH]; intros i w H Hz fuel.
  - cbn [Nat.mul Nat.add slow_down_turns Z.of_nat].
    rewrite Z.mul_0_r, Z.add_0_r, app_nil_r, world_eta. reflexivity.
  - replace (4 * S n + fuel)%nat with (4 + (4 * n + fuel))%nat by lia.
    rewrite polling_slow_down_turn_os.
    + rewrite IH.
      * cbn [log files slow_down_turns]. rewrite <- app_assoc.
        replace (i + 5 + 5 * Z.of_nat n) with (i + 5 * Z.of_nat (S n)) by lia.
        reflexivity.
      * intros k Hk. cbn [log]. rewrite <- app_assoc.
        apply (H (S k)). lia.
      * intros k Hk.
        replace (i + 5 + 5 * Z.of_nat (S k))
          with (i + 5 * Z.of_nat (S (S k))) by lia.
        apply Hz. lia.
    + unfold token_answer. specialize (H O ltac:(lia)).
      cbn [slow_down_turns] in H. rewrite app_nil_r in H. exact H.
    + specialize (Hz O ltac:(lia)).
      replace (i + 5 * Z.of_nat 1) with (i + 5) in Hz by lia. exact Hz.
Qed.

(** C2. When the token endpoint answers n consecutive polls with status 400
    and error slow_down, and time.sleep accepts each of the raised
    intervals, each of these turns adds exactly 5 to the interval, prints,
    sleeps the new interval and continues: after the n turns the loop is in
    its polling state with the same device code and the interval i + 5 * n,
    and its next step is a POST to the token endpoint whose form holds that
    device code. *)
Theorem slow_down_adds_5_and_retries
    (d : pyval) (i : Z) (w : world) (n : nat) :
  (forall k, (k < n)%nat ->
     error_is (post_server ev (log w ++ slow_down_turns d i k) token_url
                 (token_form d)) "slow_down" = true) ->
  (forall k, (k < n)%nat ->
     sleep_refusal o (PInt (i + 5 * Z.of_nat (S k))) = None) ->
  (forall fuel,
     exec_os ev o (4 * n + fuel) (polling py_repr d (PInt i)) w
     = exec_os ev o fuel (polling py_repr d (PInt (i + 5 * Z.of_nat n)))
         (World (log w ++ slow_down_turns d i n) (files w)))
  /\ snd (exec_os ev o (4 * n + 1) (polling py_repr d (PInt i)) w)
     = World (log w ++ slow_down_turns d i n
              ++ [APost token_url
                    [("grant_type",
                      PStr "urn:ietf:params:oauth:grant-type:device_code");
                     ("device_code", d);
                     ("client_id", PStr "envri-token-cli")]])
             (files w).
Proof.
  intros H Hz. split.
  - intros fuel. apply polling_slow_down_turns_os; assumption.
  - rewrite polling_slow_down_turns_os by assumption.
    rewrite polling_requests_os. cbn [log files].
    rewrite <- app_assoc. reflexivity.
Qed.

(** A pending turn after [n] turns of [slow_down] sleeps the interval as
    these turns left it. *)
Lemma pending_after_slow_downs (d : pyval) (i : Z) (w : world) (n : nat) :
  (forall k, (k < n)%nat ->
     error_is (post_server ev (log w ++ slow_down_turns d i k) token_url
                 (token_form d)) "slow_down" = true) ->
  (forall k, (k <= n)%nat ->
     sleep_refusal o (PInt (i + 5 * Z.of_nat k)) = None) ->
  error_is (post_server ev (log w ++ slow_down_turns d i n) token_url
              (token_form d)) "authorization_pending" = true ->
  forall fuel,
    exec_os ev o (4 * n + (4 + fuel)) (polling py_repr d (PInt i)) w
    = exec_os ev o fuel (polling py_repr d (PInt (i + 5 * Z.of_nat n)))
        (World (log w ++ slow_down_turns d i n
                ++ pending_turn d (PInt (i + 5 * Z.of_nat n))) (files w)).
Proof.
  intros Hslow Hz Hpend fuel.
  rewrite polling_slow_down_turns_os;
    [|exact Hslow|intros k Hk; apply Hz; lia].
  rewrite polling_pending_turn_os; [|exact Hpend|apply Hz; lia].
  cbn [log files]. rewrite <- app_assoc. reflexivity.
Qed.

(** C3. When the token endpoint answers a poll with status 400 and error
    authorization_pending, and time.sleep accepts the interval the loop
    holds at that turn (the value last set), the turn sleeps exactly that
    interval and continues with the same device code and the same interval;
    the next step is a POST to the token endpoint whose form holds that
    device code. *)
Theorem pending_sleeps_interval_and_retries
    (d i : pyval) (w : world) :
  error_is (token_answer ev w d) "authorization_pending" = true ->
  sleep_refusal o i = None ->
  (forall fuel,
     exec_os ev o (4 + fuel) (polling py_repr d i) w
     = exec_os ev o fuel (polling py_repr d i)
         (World (log w ++ [token_request d;
                           APrint "⏳ Still waiting for authorization...";
                           ASleep i]) (files w)))
  /\ snd (exec_os ev o 5 (polling py_repr d i) w)
     = World (log w ++
              [token_request d;
               APrint "⏳ Still waiting for authorization...";
               ASleep i;
               APost token_url
                 [("grant_type",
                   PStr "urn:ietf:params:oauth:grant-type:device_code");
                  ("device_code", d);
                  ("client_id", PStr "envri-token-cli")]])
             (files w).
Proof.
  intros H Hz. split.
  - intros fuel. apply polling_pending_turn_os; assumption.
  - change 5%nat with (4 + 1)%nat.
    rewrite polling_pending_turn_os by assumption.
    rewrite polling_requests_os. cbn [log files].
    rewrite <- app_assoc. reflexivity.
Qed.

(** With a device response of status 200 that holds the four fields,
    getHeaderOAuth reaches its loop; none of its calls so far can be
    refused. *)
Lemma getHeaderOAuth_enters_polling_os
    (w : world) (data : list (string * pyval)) (uri expires d i : pyval)
    (fuel : nat) :
  status_code (device_answer ev w) = 200 ->
  json (device_answer ev w) = Some (PDict data) ->
  dict_lookup "verification_uri_complete" data = Some uri ->
  dict_lookup "expires_in" data = Some expires ->
  dict_lookup "device_code" data = Some d ->
  dict_lookup "interval" data = Some i ->
  exec_os ev o (5 + fuel) (getHeaderOAuth py_repr) w
  = exec_os ev o fuel (polling py_repr d i)
      (World (log w ++
              [APrint "Initiating OAuth2 device flow...";
               APost device_url device_form;
               APrint (nl +:+ "Please open this URL in your browser:");
               APrint (py_str py_repr uri);
               APrint (nl +:+ "Waiting for authentication... (expires in "
                       +:+ py_str py_repr expires +:+ " seconds)")])
             (files w)).
Proof.
  intros Hs Hj Hu Hx Hd Hi.
  unfold device_answer, device_url, device_form in Hs, Hj.
  unfold getHeaderOAuth, requests_post, print. cbn [Nat.add]. run_os.
  change (log (logged (APrint "Initiating OAuth2 device flow...") w))
    with (log w ++ [APrint "Initiating OAuth2 device flow..."]).
  rewrite Hs. cbn [Z.eqb Pos.eqb negb].
  unfold response_json. rewrite Hj. cbn [try_]. run_os.
  cbn [py_getitem]. rewrite Hu. cbn [try_]. run_os.
  rewrite Hx. cbn [try_]. run_os.
  rewrite Hd. cbn [try_]. run_os.
  rewrite Hi. cbn [try_]. run_os.
  unfold logged; cbn [log files]. rewrite <- !app_assoc. reflexivity.
Qed.

Lemma polling_pending_partial_os (d i : pyval) (w : world) (fuel : nat) :
  error_is (token_answer ev w d) "authorization_pending" = true ->
  sleep_refusal o i = None ->
  (fuel < 4)%nat ->
  fst (exec_os ev o fuel (polling py_repr d i) w) = Running.
Proof.
  intros H Hz Hf. apply error_is_true in H as (Hs & body & Hj & He).
  unfold token_answer, token_url in Hs, Hj.
  destruct fuel as [|[|[|[|fuel]]]]; [reflexivity| | | |lia];
    enter_turn_os; rewrite Hs; cbn [Z.eqb Pos.eqb];
    unfold response_json; rewrite Hj; cbn [try_]; run_os;
    cbn [py_get]; rewrite He; cbn [try_]; run_os;
    cbn [py_eq_str String.eqb Ascii.eqb Bool.eqb]; run_os;
    try rewrite Hz; run_os; reflexivity.
Qed.

Section AlwaysPending.

Variables d i : pyval.

(** The token endpoint answers authorization_pending to every poll whose
    form holds the device code [d], whatever has happened before. *)
Hypothesis always_pending :
  forall h : list action,
    error_is (post_server ev h token_url
                [("grant_type",
                  PStr "urn:ietf:params:oauth:grant-type:device_code");
                 ("device_code", d);
                 ("client_id", PStr "envri-token-cli")])
      "authorization_pending" = true.

(** time.sleep accepts the interval, at every turn. *)
Hypothesis sleep_accepted : sleep_refusal o i = None.

Lemma polling_pending_turns_os (n : nat) :
  forall (w : world) (fuel : nat),
    exec_os ev o (4 * n + fuel) (polling py_repr d i) w
    = exec_os ev o fuel (polling py_repr d i)
        (World (log w ++ pending_turns d i n) (files w)).
Proof.
  induction n as [|n IH]; intros w fuel.
  - cbn [Nat.mul Nat.add pending_turns]. rewrite app_nil_r, world_eta.
    reflexivity.
  - replace (4 * S n + fuel)%nat with (4 + (4 * n + fuel))%nat by lia.
    rewrite polling_pending_turn_os;
      [|apply always_pending|exact sleep_accepted].
    rewrite IH. cbn [log files pending_turns]. rewrite <- app_assoc.
    reflexivity.
Qed.

Lemma polling_never_ends_os (fuel : nat) :
  forall w : world, fst (exec_os ev o fuel (polling py_repr d i) w) = Running.
Proof.
  induction fuel as [fuel IH] using lt_wf_ind. intros w.
  destruct (Nat.lt_ge_cases fuel 4) as [Hlt|Hge].
  - apply polling_pending_partial_os;
      [apply always_pending|exact sleep_accepted|exact Hlt].
  - replace fuel with (4 + (fuel - 4))%nat by lia.
    rewrite polling_pending_turn_os;
      [|apply always_pending|exact sleep_accepted].
    apply IH. lia.
Qed.

Lemma getHeaderOAuth_never_ends_os
    (w : world) (data : list (string * pyval)) (uri expires : pyval)
    (fuel : nat) :
  status_code (device_answer ev w) = 200 ->
  json (device_answer ev w) = Some (PDict data) ->
  dict_lookup "verification_uri_complete" data = Some uri ->
  dict_lookup "expires_in" data = Some expires ->
  dict_lookup "device_code" data = Some d ->
  dict_lookup "interval" data = Some i ->
  fst (exec_os ev o fuel (getHeaderOAuth py_repr) w) = Running.
Proof.
  intros Hs Hj Hu Hx Hd Hi.
  destruct (Nat.lt_ge_cases fuel 5) as [Hlt|Hge].
  - unfold device_answer, device_url, device_form in Hs, Hj.
    destruct fuel as [|[|[|[|[|fuel]]]]]; [reflexivity| | | | |lia];
      unfold getHeaderOAuth, requests_post, print; run_os;
      try reflexivity;
      change (log (logged (APrint "Initiating OAuth2 device flow...") w))
        with (log w ++ [APrint "Initiating OAuth2 device flow..."]);
      rewrite Hs; cbn [Z.eqb Pos.eqb negb];
      unfold response_json; rewrite Hj; cbn [try_]; run_os;
      try reflexivity;
      cbn [py_getitem]; rewrite Hu; cbn [try_]; run_os;
      try reflexivity;
      rewrite Hx; cbn [try_]; run_os; reflexivity.
  - replace fuel with (5 + (fuel - 5))%nat by lia.
    rewrite (getHeaderOAuth_enters_polling_os w data uri expires d i)
      by assumption.
    apply polling_never_ends_os.
Qed.

(** C8. The loop of getHeaderOAuth has no bound of its own.  Against a token
    endpoint that answers every poll with status 400 and error
    authorization_pending, and with an interval that time.sleep accepts,
    the loop is still running after any number of steps; after n such
    answers it has slept n times and makes one more POST to the token
    endpoint whose form holds the same device code.  The same holds for
    getHeaderOAuth as a whole, whatever expires_in the device response
    declared: the value is printed and never compared with anything. *)
Theorem polling_loop_is_unbounded (w : world) :
  (forall fuel, fst (exec_os ev o fuel (polling py_repr d i) w) = Running)
  /\ (forall n,
        snd (exec_os ev o (4 * n + 1) (polling py_repr d i) w)
        = World (log w ++ pending_turns d i n
                 ++ [APost token_url
                       [("grant_type",
                         PStr "urn:ietf:params:oauth:grant-type:device_code");
                        ("device_code", d);
                        ("client_id", PStr "envri-token-cli")]])
                (files w))
  /\ (forall (w0 : world) (data : list (string * pyval))
             (uri expires : pyval),
        status_code (device_answer ev w0) = 200 ->
        json (device_answer ev w0) = Some (PDict data) ->
        dict_lookup "verification_uri_complete" data = Some uri ->
        dict_lookup "expires_in" data = Some expires ->
        dict_lookup "device_code" data = Some d ->
        dict_lookup "interval" data = Some i ->
        forall fuel,
          fst (exec_os ev o fuel (getHeaderOAuth py_repr) w0) = Running).
Proof.
  split; [|split].
  - intros fuel. apply polling_never_ends_os.
  - intros n. rewrite polling_pending_turns_os, polling_requests_os.
    cbn [log files]. rewrite <- app_assoc. reflexivity.
  - intros w0 data uri expires Hs Hj Hu Hx Hd Hi fuel.
    apply (getHeaderOAuth_never_ends_os w0 data uri expires); assumption.
Qed.

End AlwaysPending.

End DeviceFlowOs.

(** * The download where the open can be refused *)

Section DownloadOs.

Variable py_repr : pyval -> string.
Variable ev : env.
Variable o : os.

Lemma header_files_os (use_oauth : bool) (fuel : nat) (w : world) :
  files (snd (exec_os ev o fuel
                (if use_oauth then getHeaderOAuth py_repr else getHeader) w))
  = files w.
Proof.
  apply exec_os_file_free.
  destruct use_oauth;
    [apply getHeaderOAuth_file_free|apply getHeader_file_free].
Qed.

(** The writes of the non-empty chunks to a file that is open; an empty
    chunk takes no step. *)
Lemma exec_os_write_chunks (path : string) (chunks : list bytes) :
  forall {R : Type} (k : unit -> py R) (w : world) (c : bytes) (fuel : nat),
    files w !! path = Some c ->
    exec_os ev o (length (List.filter bytes_truth chunks) + fuel)
      (ITree.bind (write_chunks path chunks) k) w
    = exec_os ev o fuel (k tt)
        (World (log w ++ map (AWrite path) (List.filter bytes_truth chunks))
               (<[path := c ++ concat (List.filter bytes_truth chunks)]>
                  (files w))).
Proof.
  induction chunks as [|chunk rest IH]; intros R k w c fuel Hc.
  - cbn. run_os. rewrite !app_nil_r, (insert_id _ _ _ Hc), world_eta.
    reflexivity.
  - cbn [write_chunks]. destruct chunk as [|b chunk].
    + cbn [bytes_truth List.filter]. run_os. apply IH. exact Hc.
    + cbn [bytes_truth List.filter length Nat.add map concat]. run_os.
      rewrite Hc. cbn [default].
      rewrite (IH _ _ _ (c ++ b :: chunk)) by apply lookup_insert_eq.
      cbn [log files]. rewrite insert_insert_eq, <- !app_assoc.
      reflexivity.
Qed.

(** C6. Once the header is obtained, a status 200 from the resource server
    makes downloadOneFlight open output_dir + "/" + flight + ".nc" for
    writing and, when the open is accepted, write the non-empty chunks of
    the response in order, close the file, print the path and return.  The
    file at that path then holds the concatenation of these chunks, which is
    the body of the response. *)
Theorem download_200_writes_body
    (flight output_dir : string) (use_oauth : bool) (w : world)
    (fuel : nat) (h : header) (w1 : world) (more : nat) :
  exec_os ev o fuel (if use_oauth then getHeaderOAuth py_repr else getHeader) w
  = (Returned h, w1) ->
  status_code (resource_answer ev w1 flight h) = 200 ->
  open_refusal o (output_dir +:+ "/" +:+ flight +:+ ".nc") = None ->
  exists fs,
    exec_os ev o
      (fuel + (4 + length (written_chunks (resource_answer ev w1 flight h))
               + more))
      (downloadOneFlight py_repr flight output_dir use_oauth) w
    = (Returned tt,
       World (log w1
              ++ [AGet (flight_url flight) h true;
                  AOpen (output_dir +:+ "/" +:+ flight +:+ ".nc")]
              ++ map (AWrite (output_dir +:+ "/" +:+ flight +:+ ".nc"))
                   (written_chunks (resource_answer ev w1 flight h))
              ++ [AClose (output_dir +:+ "/" +:+ flight +:+ ".nc");
                  APrint ("File downloaded : "
                          +:+ (output_dir +:+ "/" +:+ flight +:+ ".nc"))])
             fs)
    /\ fs !! (output_dir +:+ "/" +:+ flight +:+ ".nc")
       = Some (concat (written_chunks (resource_answer ev w1 flight h)))
    /\ concat (written_chunks (resource_answer ev w1 flight h))
       = body (resource_answer ev w1 flight h).
Proof.
  intros Hh Hs Ho.
  exists (<[output_dir +:+ "/" +:+ flight +:+ ".nc" :=
             concat (written_chunks (resource_answer ev w1 flight h))]>
            (files w)).
  split; [|split; [apply lookup_insert_eq|apply concat_nonempty]].
  pose proof (header_files_os use_oauth fuel w) as Hf. rewrite Hh in Hf.
  cbn [snd] in Hf.
  unfold downloadOneFlight.
  eapply exec_os_bind_returned; [exact Hh| |discriminate].
  unfold resource_answer, flight_url in Hs |- *. unfold requests_get.
  replace (4 + length (written_chunks
                         (get_server ev (log w1)
                            (SERVICE_URL +:+ "/" +:+ flight
                             +:+ "?level=2&format=netcdf&type=timeseries") h))
           + more)%nat
    with (S (S (length (written_chunks
                          (get_server ev (log w1)
                             (SERVICE_URL +:+ "/" +:+ flight
                              +:+ "?level=2&format=netcdf&type=timeseries") h))
               + S (S more)))) by lia.
  run_os. rewrite Hs. cbn [Z.eqb Pos.eqb]. run_os.
  rewrite Ho.
  unfold written_chunks.
  rewrite (exec_os_write_chunks _ _ _ _ []) by apply lookup_insert_eq.
  unfold print. run_os.
  unfold logged; cbn [log files].
  rewrite insert_insert_eq, Hf, <- !app_assoc. reflexivity.
Qed.

(** The open refused: the GET was sent, the exception leaves the function,
    nothing is written and no success line is printed. *)
Lemma download_200_open_refused
    (flight output_dir : string) (use_oauth : bool) (w : world)
    (fuel : nat) (h : header) (w1 : world) (x : exn) (more : nat) :
  exec_os ev o fuel (if use_oauth then getHeaderOAuth py_repr else getHeader) w
  = (Returned h, w1) ->
  status_code (resource_answer ev w1 flight h) = 200 ->
  open_refusal o (output_dir +:+ "/" +:+ flight +:+ ".nc") = Some x ->
  exec_os ev o (fuel + (2 + more))
    (downloadOneFlight py_repr flight output_dir use_oauth) w
  = (Raised x,
     World (log w1 ++ [AGet (flight_url flight) h true]) (files w1)).
Proof.
  intros Hh Hs Ho.
  unfold downloadOneFlight.
  eapply exec_os_bind_returned; [exact Hh| |discriminate].
  unfold resource_answer, flight_url in Hs |- *. unfold requests_get.
  cbn [Nat.add]. run_os. rewrite Hs. cbn [Z.eqb Pos.eqb]. run_os.
  rewrite Ho. reflexivity.
Qed.

End DownloadOs.

(** * The paths of a download and the first poll *)

Section PathsAndFirstPoll.

Variable py_repr : pyval -> string.
Variable ev : env.

(** X5. Whatever the servers answer and whichever way the header is got,
    a GET that downloadOneFlight sends is a streamed GET of the flight with
    the fixed query, and the only path it opens, writes or closes is
    output_dir + "/" + flight + ".nc". *)
Theorem downloadOneFlight_touches_only_its_file
    (flight output_dir : string) (use_oauth : bool) (fuel : nat) (w : world) :
  exists l,
    log (snd (exec ev fuel
                (downloadOneFlight py_repr flight output_dir use_oauth) w))
    = log w ++ l
    /\ Forall (download_action flight (output_dir +:+ "/" +:+ flight +:+ ".nc"))
         l.
Proof.
  destruct (exec_keeps_to ev _ fuel _ _ w
              (downloadOneFlight_keeps_to py_repr fuel flight output_dir
                 use_oauth))
    as (l & Hl & HQ & _).
  exists l. split; [exact Hl|].
  eapply Forall_impl; [exact HQ|]. apply whole_action_download.
Qed.

(** X14. With a device response of status 200 whose verification_uri_complete
    is the string u, whose expires_in is the integer e and which holds a
    device_code and an interval, getHeaderOAuth prints u on a line of its
    own, prints the expiry line with e in decimal, and its first token
    request is a POST to the token endpoint whose form holds the grant type,
    the device_code of the response and the client id. *)
Theorem device_200_prints_then_polls
    (w : world) (data : list (string * pyval)) (u : string) (e : Z)
    (d i : pyval) :
  status_code (device_answer ev w) = 200 ->
  json (device_answer ev w) = Some (PDict data) ->
  dict_lookup "verification_uri_complete" data = Some (PStr u) ->
  dict_lookup "expires_in" data = Some (PInt e) ->
  dict_lookup "device_code" data = Some d ->
  dict_lookup "interval" data = Some i ->
  snd (exec ev 6 (getHeaderOAuth py_repr) w)
  = World (log w ++
           [APrint "Initiating OAuth2 device flow...";
            APost device_url device_form;
            APrint (nl +:+ "Please open this URL in your browser:");
            APrint u;
            APrint (nl +:+ "Waiting for authentication... (expires in "
                    +:+ str_of_int e +:+ " seconds)");
            APost token_url
              [("grant_type",
                PStr "urn:ietf:params:oauth:grant-type:device_code");
               ("device_code", d);
               ("client_id", PStr "envri-token-cli")]])
          (files w).
Proof.
  intros Hs Hj Hu Hx Hd Hi. change 6%nat with (5 + 1)%nat.
  rewrite (getHeaderOAuth_enters_polling py_repr ev w data (PStr u) (PInt e)
             d i) by assumption.
  rewrite polling_requests. unfold logged; cbn [log files].
  rewrite <- app_assoc. reflexivity.
Qed.

End PathsAndFirstPoll.

(** * The two kinds of run compared *)

Section Agreement.

Variable ev : env.
Variable o : os.

(** A run of [exec] is the run of [exec_os] whenever the operating system
    accepts every call that the run makes. *)
Lemma exec_os_agrees (fuel : nat) :
  forall {R : Type} (t : py R) (w : world),
  exists l,
    log (snd (exec ev fuel t w)) = log w ++ l
    /\ (Forall (fun a => refusal o a = None) l ->
        exec_os ev o fuel t w = exec ev fuel t w).
Proof.
  induction fuel as [|fuel IH]; intros R t w; cbn;
    destruct (observe t) as [r|t'|X e k];
    try (exists []; split; [symmetry; apply app_nil_r|reflexivity]).
  - destruct e as [ex|io]; [destruct ex|];
      exists []; split; try (symmetry; apply app_nil_r); reflexivity.
  - apply IH.
  - destruct e as [ex|io].
    + destruct ex. exists []. split; [symmetry; apply app_nil_r|reflexivity].
    + pose proof (handle_log ev io w) as Hl.
      destruct (handle ev io w) as [a w']. cbn [fst snd] in Hl.
      destruct (IH _ (k a) w') as (l & Hlog & Hrun).
      exists (action_of io a :: l). split.
      * rewrite Hlog, Hl, <- app_assoc. reflexivity.
      * intros HF. inversion HF as [|? ? Ha Hrest]; subst.
        rewrite Ha. apply Hrun, Hrest.
Qed.

End Agreement.

(** * Runs on scripted servers under an operating system *)

Lemma slow_down_witness :
  snd (exec_os (answering (token_error "slow_down")
                  (text_response 200 "NCDATA")) (tmp_only 3600)
         9 (polling repr_plain (PStr "abc") (PInt 5)) fresh)
  = World [APost "https://login.staging.envri.eu/auth/realms/envri/protocol/openid-connect/token"
             [("grant_type",
               PStr "urn:ietf:params:oauth:grant-type:device_code");
              ("device_code", PStr "abc");
              ("client_id", PStr "envri-token-cli")];
           APrint "⏳ Slowing down polling to 10s intervals...";
           ASleep (PInt 10);
           token_request (PStr "abc");
           APrint "⏳ Slowing down polling to 15s intervals...";
           ASleep (PInt 15);
           token_request (PStr "abc")] ∅.
Proof.
  apply (proj2 (slow_down_adds_5_and_retries repr_plain
                  (answering (token_error "slow_down")
                     (text_response 200 "NCDATA"))
                  (tmp_only 3600)
                  (PStr "abc") 5 fresh 2 (fun k _ => eq_refl)
                  (fun k =>
                     match k with
                     | 0%nat => fun _ => eq_refl
                     | 1%nat => fun _ => eq_refl
                     | S (S k') => fun H => ltac:(lia)
                     end))).
Defined.

Lemma pending_witness :
  snd (exec_os (answering (token_error "authorization_pending")
                  (text_response 200 "NCDATA")) (tmp_only 3600)
         5 (polling repr_plain (PStr "abc") (PInt 5)) fresh)
  = World [token_request (PStr "abc");
           APrint "⏳ Still waiting for authorization...";
           ASleep (PInt 5);
           token_request (PStr "abc")] ∅.
Proof.
  apply (proj2 (pending_sleeps_interval_and_retries repr_plain
                  (answering (token_error "authorization_pending")
                     (text_response 200 "NCDATA"))
                  (tmp_only 3600)
                  (PStr "abc") (PInt 5) fresh eq_refl eq_refl)).
Defined.

Lemma unbounded_witness :
  fst (exec_os (answering (token_error "authorization_pending")
                  (text_response 200 "NCDATA")) (tmp_only 3600)
         1000 (getHeaderOAuth repr_plain) fresh) = Running
  /\ snd (exec_os (answering (token_error "authorization_pending")
                     (text_response 200 "NCDATA")) (tmp_only 3600)
            (4 * 2 + 1) (polling repr_plain (PStr "abc") (PInt 5)) fresh)
     = World (pending_turns (PStr "abc") (PInt 5) 2
              ++ [token_request (PStr "abc")]) ∅.
Proof.
  split.
  - apply (proj2 (proj2 (polling_loop_is_unbounded repr_plain
                           (answering (token_error "authorization_pending")
                              (text_response 200 "NCDATA"))
                           (tmp_only 3600)
                           (PStr "abc") (PInt 5) (fun h => eq_refl) eq_refl
                           fresh))
             fresh
             [("device_code", PStr "abc"); ("interval", PInt 5);
              ("expires_in", PInt 600);
              ("verification_uri_complete", PStr "https://x")]
             (PStr "https://x") (PInt 600));
      reflexivity.
  - apply (proj1 (proj2 (polling_loop_is_unbounded repr_plain
                           (answering (token_error "authorization_pending")
                              (text_response 200 "NCDATA"))
                           (tmp_only 3600)
                           (PStr "abc") (PInt 5) (fun h => eq_refl) eq_refl
                           fresh))).
Defined.

Lemma download_F1_witness :
  exists fs,
    exec_os (answering (token_ok "tok123") (text_response 200 "NCDATA"))
      (tmp_only 3600) 6
      (downloadOneFlight repr_plain "F1" "/tmp" false) fresh
    = (Returned tt,
       World [AInput "Please fill your ENVRI-ID token :" "manual-token";
              AGet (flight_url "F1")
                [("Authorization", "Bearer manual-token");
                 ("Accept", "application/octet-stream")] true;
              AOpen "/tmp/F1.nc";
              AWrite "/tmp/F1.nc" (list_byte_of_string "NCDATA");
              AClose "/tmp/F1.nc";
              APrint "File downloaded : /tmp/F1.nc"]
             fs)
    /\ fs !! "/tmp/F1.nc" = Some (list_byte_of_string "NCDATA").
Proof.
  destruct (download_200_writes_body repr_plain
              (answering (token_ok "tok123") (text_response 200 "NCDATA"))
              (tmp_only 3600)
              "F1" "/tmp" false fresh 1
              [("Authorization", "Bearer manual-token");
               ("Accept", "application/octet-stream")]
              (World [AInput "Please fill your ENVRI-ID token :"
                        "manual-token"] ∅)
              0 eq_refl eq_refl eq_refl) as (fs & Hrun & Hfile & _).
  exists fs. split; [exact Hrun|exact Hfile].
Defined.

Lemma device_200_witness :
  snd (exec pending_then_token 6 (getHeaderOAuth repr_plain) fresh)
  = World [APrint "Initiating OAuth2 device flow...";
           APost "https://login.staging.envri.eu/auth/realms/envri/protocol/openid-connect/auth/device"
             [("client_id", PStr "envri-token-cli");
              ("scope", PStr "openid profile email entitlements")];
           APrint (nl +:+ "Please open this URL in your browser:");
           APrint "https://x";
           APrint (nl +:+ "Waiting for authentication... (expires in 600 seconds)");
           APost "https://login.staging.envri.eu/auth/realms/envri/protocol/openid-connect/token"
             [("grant_type",
               PStr "urn:ietf:params:oauth:grant-type:device_code");
              ("device_code", PStr "abc");
              ("client_id", PStr "envri-token-cli")]] ∅.
Proof.
  apply (device_200_prints_then_polls repr_plain pending_then_token fresh
           [("device_code", PStr "abc"); ("interval", PInt 5);
            ("expires_in", PInt 600);
            ("verification_uri_complete", PStr "https://x")]
           "https://x" 600 (PStr "abc") (PInt 5));
    reflexivity.
Defined.

(** A negative interval: the first pending answer ends the loop with the
    ValueError of [time.sleep]. *)
Example pending_negative_interval_raises :
  exec_os (answering (token_error "authorization_pending")
             (text_response 200 "NCDATA")) (tmp_only 3600)
    3 (polling repr_plain (PStr "abc") (PInt (-7))) fresh
  = (Raised ValueError,
     World [token_request (PStr "abc");
            APrint "⏳ Still waiting for authorization..."] ∅).
Proof.
  apply (polling_pending_sleep_refused repr_plain
           (answering (token_error "authorization_pending")
              (text_response 200 "NCDATA"))
           (tmp_only 3600) (PStr "abc") (PInt (-7)) fresh ValueError 0);
    reflexivity.
Qed.

(** An interval that is a string: TypeError. *)
Example pending_string_interval_raises :
  fst (exec_os (answering (token_error "authorization_pending")
                  (text_response 200 "NCDATA")) (tmp_only 3600)
         3 (polling repr_plain (PStr "abc") (PStr "5")) fresh)
  = Raised TypeError.
Proof. reflexivity. Qed.

(** A slow_down answer at the interval -6 raises it to -1, which is
    refused. *)
Example slow_down_negative_interval_raises :
  exec_os (answering (token_error "slow_down")
             (text_response 200 "NCDATA")) (tmp_only 3600)
    3 (polling repr_plain (PStr "abc") (PInt (-6))) fresh
  = (Raised ValueError,
     World [token_request (PStr "abc");
            APrint "⏳ Slowing down polling to -1s intervals..."] ∅).
Proof.
  apply (polling_slow_down_sleep_refused repr_plain
           (answering (token_error "slow_down")
              (text_response 200 "NCDATA"))
           (tmp_only 3600) (PStr "abc") (-6) fresh ValueError 0);
    reflexivity.
Qed.

(** A directory that cannot be opened: the download ends with the error of
    the open, after the GET and before any write. *)
Example download_missing_directory_raises :
  exec_os (answering (token_ok "tok123") (text_response 200 "NCDATA"))
    (tmp_only 3600) 6
    (downloadOneFlight repr_plain "F1" "/nowhere" false) fresh
  = (Raised OSError,
     World [AInput "Please fill your ENVRI-ID token :" "manual-token";
            AGet (flight_url "F1")
              [("Authorization", "Bearer manual-token");
               ("Accept", "application/octet-stream")] true] ∅).
Proof.
  apply (download_200_open_refused repr_plain
           (answering (token_ok "tok123") (text_response 200 "NCDATA"))
           (tmp_only 3600)
           "F1" "/nowhere" false fresh 1
           [("Authorization", "Bearer manual-token");
            ("Accept", "application/octet-stream")]
           (World [AInput "Please fill your ENVRI-ID token :"
                     "manual-token"] ∅)
           OSError 4);
    reflexivity.
Qed.
